(** * workout_api: the athlete controller

    A shallow embedding of [workout_api/atleta/controller.py]: the five
    handlers [post], [query], [get], [patch] and [delete], run against a
    model of the SQLAlchemy session they are handed (a unit of work over
    transactional tables), and the properties of the handlers.

    Conventions.
    - A Python [str] is a [string] (its UTF-8 bytes, [len] counting its
      characters); [int] is [Z].
    - A Python object whose attributes are set and read by name (an ORM
      instance, a [model_dump()] dictionary) is a [gmap string value]; an
      attribute that is not in the map reads as [None] (a NULL column).
    - A handler is a computation in the monad [M]: it threads the session
      and either returns or raises.
    - [datetime.now()] is the argument [now] of [post]; the pagination
      parameters that [paginate] takes from the request are the argument
      [params] of [query]. *)

From Stdlib Require Import ZArith NArith Ascii String List Bool Lia.
From stdpp Require Import base tactics option list strings gmap fin_maps pretty.

Local Open Scope Z_scope.
Local Open Scope string_scope.

(** ** Python values *)

(** A naive [datetime.datetime]. *)
Record datetime := Datetime {
  year : N; month : N; day : N;
  hour : N; minute : N; second : N; microsecond : N
}.

(** The values a column or a schema field holds. *)
Inductive value :=
| VNone
| VInt (z : Z)
| VStr (s : string)
| VDatetime (d : datetime).

#[global] Instance datetime_eq_dec : EqDecision datetime.
Proof. solve_decision. Defined.

#[global] Instance value_eq_dec : EqDecision value.
Proof. solve_decision. Defined.

(** [n] in decimal, padded with zeros on the left to [width] digits. *)
Definition zero_pad (width : nat) (n : N) : string :=
  let digits := pretty n in
  String.concat "" (replicate (width - String.length digits) "0") +:+ digits.

(** [str(d)]: ISO format with a space, the microseconds only when not zero. *)
Definition str_datetime (d : datetime) : string :=
  zero_pad 4 (year d) +:+ "-" +:+ zero_pad 2 (month d) +:+ "-" +:+ zero_pad 2 (day d)
  +:+ " " +:+ zero_pad 2 (hour d) +:+ ":" +:+ zero_pad 2 (minute d)
  +:+ ":" +:+ zero_pad 2 (second d)
  +:+ (if (microsecond d =? 0)%N then "" else "." +:+ zero_pad 6 (microsecond d)).

(** [str(v)], what an f-string puts in place of [{v}]. *)
Definition str (v : value) : string :=
  match v with
  | VNone => "None"
  | VInt z => pretty z
  | VStr s => s
  | VDatetime d => str_datetime d
  end.

(** [obj.name] on a loaded instance. *)
Definition getattr (a : gmap string value) (name : string) : value :=
  default VNone (a !! name).

(** [d.get(key)] on a dictionary. *)
Definition dict_get (d : gmap string value) (key : string) : value :=
  default VNone (d !! key).

(** Truthiness of an optional string: [None] and the empty string are false. *)
Definition truthy (s : option string) : bool :=
  match s with
  | None => false
  | Some s => negb (String.eqb s "")
  end.

(** A byte that continues a UTF-8 character. *)
Definition is_continuation (c : ascii) : bool :=
  let n := N_of_ascii c in ((128 <=? n) && (n <? 192))%N.

(** [len(s)]: the characters of [s]. *)
Definition len (s : string) : nat :=
  length (List.filter (λ c, negb (is_continuation c)) (list_ascii_of_string s)).

(** Every character of [s] is an ASCII one. *)
Definition is_ascii (s : string) : bool :=
  forallb (λ c, (N_of_ascii c <? 128)%N) (list_ascii_of_string s).

(** ** Exceptions and the handler monad *)

Definition HTTP_200_OK : Z := 200.
Definition HTTP_201_CREATED : Z := 201.
Definition HTTP_204_NO_CONTENT : Z := 204.
Definition HTTP_400_BAD_REQUEST : Z := 400.
Definition HTTP_404_NOT_FOUND : Z := 404.
Definition HTTP_422_UNPROCESSABLE_ENTITY : Z := 422.
Definition HTTP_500_INTERNAL_SERVER_ERROR : Z := 500.

Inductive exn :=
| IntegrityError                      (* sqlalchemy.exc: a constraint is violated *)
| DataError                           (* sqlalchemy.exc: a value the engine refuses *)
| StaleDataError                      (* sqlalchemy.orm.exc: an UPDATE matched no row *)
| InvalidRequestError                 (* sqlalchemy.exc: the instance cannot be used so *)
| TypeError                           (* a call with a keyword given twice *)
| ValidationError                     (* pydantic: the object does not fit the schema *)
| RequestValidationError              (* fastapi: a parameter breaks its constraint *)
| HTTPException (status_code : Z) (detail : string).

Inductive outcome (A : Type) :=
| Ok (a : A)
| Raise (e : exn).
Arguments Ok {A} a.
Arguments Raise {A} e.

(** ** The tables *)

(** A row of [categorias]. *)
Module CategoriaModel.
Record t := mk { pk_id : Z; nome : string }.
End CategoriaModel.

(** A row of [centros_treinamento]. *)
Module CentroTreinamentoModel.
Record t := mk { pk_id : Z; nome : string }.
End CentroTreinamentoModel.

(** The three tables. An athlete row is stored under its surrogate key
    [pk_id]; the map holds its other columns by name. *)
Record Tables := {
  categorias : list CategoriaModel.t;
  centros_treinamento : list CentroTreinamentoModel.t;
  atletas : gmap Z (gmap string value)
}.

Definition set_atletas (t : Tables) (rows : gmap Z (gmap string value)) : Tables :=
  {| categorias := categorias t;
     centros_treinamento := centros_treinamento t;
     atletas := rows |}.

(** The [cpf] column of a row, when it holds a string. *)
Definition cpf_of (a : gmap string value) : option string :=
  match a !! "cpf" with
  | Some (VStr c) => Some c
  | _ => None
  end.

(** The unique constraint on [cpf]: some row other than [skip] holds [c]. *)
Definition cpf_taken (rows : gmap Z (gmap string value)) (skip : option Z) (c : string) : bool :=
  existsb (λ kr : Z * gmap string value,
             negb (bool_decide (Some kr.1 = skip)) && bool_decide (cpf_of kr.2 = Some c))
          (map_to_list rows).

(** The engine, as far as the controller depends on it. It refuses a row
    for a value it cannot store ([data_error]: out of the range or length
    of its column) or for a constraint the row violates: the unique
    constraint on [cpf] and the primary key are spelled out with the
    statements below, and [constraint_error] stands for every other
    constraint the table may carry (NOT NULL, foreign key, check).
    [next_pk_id] is the key the engine generates for a row inserted into
    the table; nothing is assumed of it. Columns and constraints are
    declared with the mapped classes, outside the controller: hence the
    parameters. *)
Record Engine := {
  data_error : gmap string value → bool;
  constraint_error : Tables → gmap string value → bool;
  next_pk_id : gmap Z (gmap string value) → Z
}.

(** ** The session: a unit of work over the tables *)

(** Where an instance of the mapped class stands in the session. *)
Inductive obj_state :=
| Transient
| Pending
| Persistent (pk : Z)
| Deleted (pk : Z).

(** An instance of [AtletaModel]: its state and its attributes. *)
Record AtletaModel := {
  state : obj_state;
  attrs : gmap string value
}.

(** [committed] is what the store holds, [working] what the open
    transaction sees, [objects] the instances the session knows; a Python
    variable bound to an instance is its index in [objects]. [is_active]
    is the attribute of that name: false from a flush the engine refused
    until the next [rollback]. (What a session refuses while it is not
    active is not modelled: after a refused flush every handler rolls back
    or ends.) *)
Record Session := {
  committed : Tables;
  working : Tables;
  objects : list AtletaModel;
  is_active : bool
}.

(** The session a request is handed. *)
Definition begin (db : Tables) : Session :=
  {| committed := db; working := db; objects := []; is_active := true |}.

Definition M (A : Type) : Type := Session → outcome A * Session.

#[global] Instance M_ret : MRet M := λ A a s, (Ok a, s).

#[global] Instance M_bind : MBind M := λ A B f m s,
  match m s with
  | (Ok a, s') => f a s'
  | (Raise e, s') => (Raise e, s')
  end.

Definition raise {A} (e : exn) : M A := λ s, (Raise e, s).

(** [try: body / except ...: handler e]; a handler re-raises what it does
    not catch. *)
Definition try_except {A} (body : M A) (handler : exn → M A) : M A := λ s,
  match body s with
  | (Ok a, s') => (Ok a, s')
  | (Raise e, s') => handler e s'
  end.

(** [for x in xs: body x]. *)
Fixpoint for_each {A} (xs : list A) (body : A → M unit) : M unit :=
  match xs with
  | [] => mret tt
  | x :: xs => body x;; for_each xs body
  end.

Definition set_objects (s : Session) (os : list AtletaModel) : Session :=
  {| committed := committed s; working := working s; objects := os;
     is_active := is_active s |}.

Definition set_attrs (o : AtletaModel) (a : gmap string value) : AtletaModel :=
  {| state := state o; attrs := a |}.

Definition set_state (o : AtletaModel) (st : obj_state) : AtletaModel :=
  {| state := st; attrs := attrs o |}.

(** A call that unpacks the dictionary [unpacked] next to the keywords
    [explicit]: a keyword given twice is a [TypeError]; otherwise the
    keywords are the union. *)
Definition call_kwargs (unpacked : gmap string value) (explicit : list (string * value))
  : outcome (gmap string value) :=
  if existsb (λ kv : string * value, bool_decide (is_Some (unpacked !! kv.1))) explicit
  then Raise TypeError
  else Ok (foldr (λ kv m, <[kv.1 := kv.2]> m) unpacked explicit).

(** The constructor of the mapped class, called with keywords: a new
    transient instance. *)
Definition AtletaModel_new (kwargs : outcome (gmap string value)) : M nat := λ s,
  match kwargs with
  | Raise e => (Raise e, s)
  | Ok kw =>
      (Ok (length (objects s)),
       set_objects s (objects s ++ [{| state := Transient; attrs := kw |}]))
  end.

(** [setattr(obj, key, value)]. *)
Definition setattr (h : nat) (key : string) (v : value) : M unit := λ s,
  match objects s !! h with
  | Some o => (Ok tt, set_objects s (<[h := set_attrs o (<[key := v]> (attrs o))]> (objects s)))
  | None => (Raise InvalidRequestError, s)
  end.

(** [db_session.add(obj)]. *)
Definition add (h : nat) : M unit := λ s,
  match objects s !! h with
  | Some o =>
      match state o with
      | Transient => (Ok tt, set_objects s (<[h := set_state o Pending]> (objects s)))
      | _ => (Ok tt, s)
      end
  | None => (Raise InvalidRequestError, s)
  end.

(** [await db_session.delete(obj)]: marks a persistent instance. *)
Definition delete_ (h : nat) : M unit := λ s,
  match objects s !! h with
  | Some o =>
      match state o with
      | Persistent pk => (Ok tt, set_objects s (<[h := set_state o (Deleted pk)]> (objects s)))
      | Deleted _ => (Ok tt, s)
      | _ => (Raise InvalidRequestError, s)
      end
  | None => (Raise InvalidRequestError, s)
  end.

(** ** Statements and the flush *)

(** What the end of a transaction without commit makes of an instance: a
    pending one leaves the session, a loaded one is read again from the
    store. *)
Definition expire (t : Tables) (o : AtletaModel) : AtletaModel :=
  match state o with
  | Transient => o
  | Pending => set_state o Transient
  | Persistent pk | Deleted pk =>
      match atletas t !! pk with
      | Some row => {| state := Persistent pk; attrs := row |}
      | None => set_state o Transient
      end
  end.

Section Statements.
Variable engine : Engine.

(** INSERT of a row, under the key the engine generates. The integrity
    errors are: a constraint of the table, a key already in use, a CPF
    another row holds. *)
Definition insert_row (t : Tables) (a : gmap string value) : outcome (Z * Tables) :=
  let pk := next_pk_id engine (atletas t) in
  if data_error engine a then Raise DataError
  else if constraint_error engine t a
          || bool_decide (is_Some (atletas t !! pk))
          || from_option (cpf_taken (atletas t) None) false (cpf_of a)
  then Raise IntegrityError
  else Ok (pk, set_atletas t (<[pk := a]> (atletas t))).

(** UPDATE of the row [pk] to the instance's attributes; nothing is sent
    when they are the row's. The integrity errors are: a constraint of the
    table, a new CPF another row holds. *)
Definition update_row (t : Tables) (pk : Z) (a : gmap string value) : outcome Tables :=
  match atletas t !! pk with
  | None => Raise StaleDataError
  | Some old =>
      if bool_decide (old = a) then Ok t
      else if data_error engine a then Raise DataError
      else if constraint_error engine t a
              || negb (bool_decide (cpf_of a = cpf_of old))
                 && from_option (cpf_taken (atletas t) (Some pk)) false (cpf_of a)
      then Raise IntegrityError
      else Ok (set_atletas t (<[pk := a]> (atletas t)))
  end.

(** DELETE of the row [pk]. *)
Definition delete_row (t : Tables) (pk : Z) : Tables :=
  set_atletas t (base.delete pk (atletas t)).

Definition flush_object (o : AtletaModel) (t : Tables) : outcome (AtletaModel * Tables) :=
  match state o with
  | Transient => Ok (o, t)
  | Pending =>
      match insert_row t (attrs o) with
      | Ok (pk, t') => Ok (set_state o (Persistent pk), t')
      | Raise e => Raise e
      end
  | Persistent pk =>
      match update_row t pk (attrs o) with
      | Ok t' => Ok (o, t')
      | Raise e => Raise e
      end
  | Deleted pk => Ok (set_state o Transient, delete_row t pk)
  end.

Fixpoint flush_objects (os : list AtletaModel) (t : Tables)
  : outcome (list AtletaModel * Tables) :=
  match os with
  | [] => Ok ([], t)
  | o :: os =>
      match flush_object o t with
      | Raise e => Raise e
      | Ok (o', t') =>
          match flush_objects os t' with
          | Raise e => Raise e
          | Ok (os', t'') => Ok (o' :: os', t'')
          end
      end
  end.

(** [await db_session.flush()]: the pending statements are sent inside the
    transaction. When the engine refuses one, the session ends the
    transaction before it raises: the transaction's view is the store
    again, the instances are expired, and the session is not active until
    it is rolled back. *)
Definition flush : M unit := λ s,
  match flush_objects (objects s) (working s) with
  | Ok (os, t) =>
      (Ok tt, {| committed := committed s; working := t; objects := os;
                 is_active := is_active s |})
  | Raise e =>
      (Raise e, {| committed := committed s; working := committed s;
                   objects := map (expire (committed s)) (objects s);
                   is_active := false |})
  end.

(** [await db_session.commit()]: flush, then the transaction's view
    becomes the store. *)
Definition commit : M unit :=
  flush;;
  ((λ s, (Ok tt, {| committed := working s; working := working s; objects := objects s;
                    is_active := is_active s |}))
   : M unit).

End Statements.

(** [await db_session.rollback()]: the transaction's view is the store
    again, the instances are expired, and the session is active. *)
Definition rollback : M unit := λ s,
  (Ok tt, {| committed := committed s; working := committed s;
             objects := map (expire (committed s)) (objects s);
             is_active := true |}).

(** [await db_session.refresh(obj)]: the attributes are read again. *)
Definition refresh (h : nat) : M unit := λ s,
  match objects s !! h with
  | Some o =>
      match state o with
      | Persistent pk =>
          match atletas (working s) !! pk with
          | Some row => (Ok tt, set_objects s (<[h := set_attrs o row]> (objects s)))
          | None => (Raise InvalidRequestError, s)
          end
      | _ => (Raise InvalidRequestError, s)
      end
  | None => (Raise InvalidRequestError, s)
  end.

(** The key under which the session knows an instance. *)
Definition identity_key (o : AtletaModel) : option Z :=
  match state o with
  | Persistent pk | Deleted pk => Some pk
  | _ => None
  end.

(** [(await db_session.execute(select(AtletaModel).filter_by(pk_id=id))).scalars().first()]:
    the instance of the row, the one the session already knows if any.
    (No handler queries while it has unflushed changes.) *)
Definition first_atleta_by_pk_id (id : Z) : M (option nat) := λ s,
  match atletas (working s) !! id with
  | None => (Ok None, s)
  | Some row =>
      match list_find (λ o, identity_key o = Some id) (objects s) with
      | Some (h, _) => (Ok (Some h), s)
      | None =>
          (Ok (Some (length (objects s))),
           set_objects s (objects s ++ [{| state := Persistent id; attrs := row |}]))
      end
  end.

(** [(await db_session.execute(select(CategoriaModel).filter_by(nome=n))).scalars().first()]. *)
Definition first_categoria_by_nome (n : string) : M (option CategoriaModel.t) := λ s,
  (Ok (find (λ c, bool_decide (CategoriaModel.nome c = n)) (categorias (working s))), s).

(** [(await db_session.execute(select(CentroTreinamentoModel).filter_by(nome=n))).scalars().first()]. *)
Definition first_centro_treinamento_by_nome (n : string)
  : M (option CentroTreinamentoModel.t) := λ s,
  (Ok (find (λ c, bool_decide (CentroTreinamentoModel.nome c = n))
            (centros_treinamento (working s))), s).

(** ** The schemas *)

Module CategoriaIn.
Record t := mk { nome : string }.
End CategoriaIn.

Module CentroTreinamentoAtleta.
Record t := mk { nome : string }.
End CentroTreinamentoAtleta.

(** Modelled from the spec: the input schema of create is declared in the
    schemas module, which the controller only imports. It has the
    attributes the controller reads ([categoria.nome],
    [centro_treinamento.nome], [cpf]) and, in [others], the remaining
    fields by name (the name and the profile fields that are passed
    through). *)
Module AtletaIn.
Record t := mk {
  categoria : CategoriaIn.t;
  centro_treinamento : CentroTreinamentoAtleta.t;
  cpf : string;
  others : gmap string value
}.
(** [atleta_in.model_dump(exclude={'categoria', 'centro_treinamento'})]. *)
Definition model_dump_exclude (a : t) : gmap string value :=
  <["cpf" := VStr (cpf a)]> (others a).
End AtletaIn.

(** Modelled from the spec: the update schema, by the fields the payload
    sets explicitly (a field set to [None] is set). *)
Module AtletaUpdate.
Record t := mk { fields_set : gmap string value }.
(** [atleta_up.model_dump(exclude_unset=True)]. *)
Definition model_dump_exclude_unset (a : t) : gmap string value := fields_set a.
End AtletaUpdate.

(** Modelled from the spec: the output schema, the full record of an
    athlete: its key and its columns. *)
Module AtletaOut.
Record t := mk { pk_id : Z; fields : gmap string value }.
End AtletaOut.

(** The display shape of the listing, with the fields the controller
    gives it. *)
Module AtletaListOut.
Record t := mk { nome : value; categoria : string; centro_treinamento : string }.
End AtletaListOut.

(** [AtletaOut.model_validate(obj, from_attributes=True)]. *)
Definition model_validate (h : nat) : M AtletaOut.t := λ s,
  match objects s !! h with
  | Some o =>
      match state o with
      | Persistent pk => (Ok (AtletaOut.mk pk (attrs o)), s)
      | _ => (Raise ValidationError, s)
      end
  | None => (Raise ValidationError, s)
  end.

(** ** The listing: patterns, criteria, pagination *)

(** Lower case of an ASCII letter; other bytes are kept. (How the engine
    folds letters outside ASCII depends on its locale, and is not
    modelled: properties that rest on the folding are stated for ASCII
    letters.) *)
Definition lower (c : ascii) : ascii :=
  let n := N_of_ascii c in
  if ((65 <=? n) && (n <=? 90))%N then ascii_of_N (n + 32) else c.

(** SQL [LIKE]: [%] matches any run of characters, [_] any one character,
    a backslash takes the next character literally. A character is a byte
    here, which is the engine's notion for ASCII text; in a name outside
    ASCII the engine's [_] takes a whole character. *)
Fixpoint like_match (p s : list ascii) : bool :=
  match p with
  | [] => match s with [] => true | _ => false end
  | c :: p' =>
      if Ascii.eqb c "%" then
        (fix skip (s : list ascii) : bool :=
           like_match p' s || match s with [] => false | _ :: s' => skip s' end) s
      else if Ascii.eqb c "_" then
        match s with [] => false | _ :: s' => like_match p' s' end
      else if Ascii.eqb c "\" then
        match p' with
        | [] => false
        | e :: p'' =>
            match s with
            | [] => false
            | d :: s' => Ascii.eqb e d && like_match p'' s'
            end
        end
      else
        match s with
        | [] => false
        | d :: s' => Ascii.eqb c d && like_match p' s'
        end
  end.

(** [column.ilike(pattern)]: [LIKE] without regard to case; a NULL matches
    nothing. *)
Definition ilike (column pattern : string) (a : gmap string value) : bool :=
  match a !! column with
  | Some (VStr s) =>
      like_match (map lower (list_ascii_of_string pattern))
                 (map lower (list_ascii_of_string s))
  | _ => false
  end.

(** [column == v]. *)
Definition column_eq (column v : string) (a : gmap string value) : bool :=
  bool_decide (a !! column = Some (VStr v)).

(** A [select(AtletaModel)] with its [where] criteria. *)
Record Select := { criteria : list (gmap string value → bool) }.

Definition select_AtletaModel : Select := {| criteria := [] |}.

Definition where_ (stmt : Select) (c : gmap string value → bool) : Select :=
  {| criteria := criteria stmt ++ [c] |}.

(** An athlete loaded with its two joined references
    ([joinedload]: none when the key refers to no row). *)
Module AtletaRow.
Record t := mk {
  pk_id : Z;
  attrs : gmap string value;
  categoria : option CategoriaModel.t;
  centro_treinamento : option CentroTreinamentoModel.t
}.
End AtletaRow.

Definition related_categoria (t : Tables) (a : gmap string value) : option CategoriaModel.t :=
  match a !! "categoria_id" with
  | Some (VInt k) => find (λ c, bool_decide (CategoriaModel.pk_id c = k)) (categorias t)
  | _ => None
  end.

Definition related_centro_treinamento (t : Tables) (a : gmap string value)
  : option CentroTreinamentoModel.t :=
  match a !! "centro_treinamento_id" with
  | Some (VInt k) =>
      find (λ c, bool_decide (CentroTreinamentoModel.pk_id c = k)) (centros_treinamento t)
  | _ => None
  end.

Definition load (t : Tables) (kr : Z * gmap string value) : AtletaRow.t :=
  AtletaRow.mk kr.1 kr.2 (related_categoria t kr.2) (related_centro_treinamento t kr.2).

(** The rows a statement selects. *)
Definition selected (stmt : Select) (t : Tables) : list (Z * gmap string value) :=
  List.filter (λ kr, forallb (λ c : gmap string value → bool, c kr.2) (criteria stmt))
              (map_to_list (atletas t)).

(** [(await db_session.execute(stmt)).scalars().all()]; the rows are only
    read, so they are taken as values. *)
Definition execute_all (stmt : Select) : M (list AtletaRow.t) := λ s,
  (Ok (map (load (working s)) (selected stmt (working s))), s).

(** [fastapi_pagination]: the limit/offset parameters of the request and
    the page it answers with. *)
Record LimitOffsetParams := { limit : nat; offset : nat }.

Record LimitOffsetPage (A : Type) := {
  items : list A;
  total : nat;
  page_limit : nat;
  page_offset : nat
}.
Arguments items {A} _.
Arguments total {A} _.
Arguments page_limit {A} _.
Arguments page_offset {A} _.

(** [paginate(items)]: the slice [items[offset : offset + limit]] and the
    length of the whole list. *)
Definition paginate {A} (params : LimitOffsetParams) (xs : list A) : LimitOffsetPage A :=
  {| items := take (limit params) (drop (offset params) xs);
     total := length xs;
     page_limit := limit params;
     page_offset := offset params |}.

(** The item the listing builds from a loaded row:
    [AtletaListOut(nome=a.nome, categoria=(a.categoria.nome if a.categoria else ""), ...)]. *)
Definition display_item (a : AtletaRow.t) : AtletaListOut.t :=
  AtletaListOut.mk
    (getattr (AtletaRow.attrs a) "nome")
    (match AtletaRow.categoria a with
     | Some c => CategoriaModel.nome c
     | None => ""
     end)
    (match AtletaRow.centro_treinamento a with
     | Some c => CentroTreinamentoModel.nome c
     | None => ""
     end).

(** A [Query(None, min_length=..., max_length=...)] parameter: absent, or
    a string whose number of characters is within the bounds. *)
Definition Query_valid (min_length max_length : option nat) (v : option string) : bool :=
  match v with
  | None => true
  | Some s =>
      from_option (λ n, bool_decide (n ≤ len s)%nat) true min_length
      && from_option (λ n, bool_decide (len s ≤ n)%nat) true max_length
  end.

(** ** The handlers *)

Module controller.
Section Handlers.
Variable engine : Engine.

(** [POST /]. *)
Definition post (now : datetime) (atleta_in : AtletaIn.t) : M AtletaOut.t :=
  let categoria_nome := CategoriaIn.nome (AtletaIn.categoria atleta_in) in
  let ct_nome := CentroTreinamentoAtleta.nome (AtletaIn.centro_treinamento atleta_in) in
  categoria ← first_categoria_by_nome categoria_nome;
  match categoria with
  | None =>
      raise (HTTPException HTTP_400_BAD_REQUEST
               ("A categoria " +:+ categoria_nome +:+ " não foi encontrada."))
  | Some categoria =>
      centro_treinamento ← first_centro_treinamento_by_nome ct_nome;
      match centro_treinamento with
      | None =>
          raise (HTTPException HTTP_400_BAD_REQUEST
                   ("O centro de treinamento " +:+ ct_nome +:+ " não foi encontrado."))
      | Some centro_treinamento =>
          try_except
            (atleta_model ← AtletaModel_new
               (call_kwargs (AtletaIn.model_dump_exclude atleta_in)
                  [("created_at", VDatetime now);
                   ("categoria_id", VInt (CategoriaModel.pk_id categoria));
                   ("centro_treinamento_id",
                    VInt (CentroTreinamentoModel.pk_id centro_treinamento))]);
             add atleta_model;;
             flush engine;;
             commit engine;;
             refresh atleta_model;;
             model_validate atleta_model)
            (λ e,
               match e with
               | IntegrityError =>
                   rollback;;
                   raise (HTTPException 303
                            ("Já existe um atleta cadastrado com o cpf: "
                             +:+ AtletaIn.cpf atleta_in))
               | _ =>
                   rollback;;
                   raise (HTTPException HTTP_500_INTERNAL_SERVER_ERROR
                            "Ocorreu um erro ao inserir os dados no banco")
               end)
      end
  end.

(** [GET /], the body of the handler. *)
Definition query (params : LimitOffsetParams) (nome cpf : option string)
  : M (LimitOffsetPage AtletaListOut.t) :=
  let stmt := select_AtletaModel in
  let stmt :=
    if truthy nome
    then where_ stmt (ilike "nome" ("%" +:+ default "" nome +:+ "%"))
    else stmt in
  let stmt :=
    if truthy cpf
    then where_ stmt (column_eq "cpf" (default "" cpf))
    else stmt in
  atletas ← execute_all stmt;
  let items := map display_item atletas in
  mret (paginate params items).

(** [GET /] as the framework serves it: the constraints the signature
    declares on [nome] and [cpf] are checked before the body runs. *)
Definition query_endpoint (params : LimitOffsetParams) (nome cpf : option string)
  : M (LimitOffsetPage AtletaListOut.t) :=
  if Query_valid None (Some 50%nat) nome && Query_valid (Some 11%nat) (Some 11%nat) cpf
  then query params nome cpf
  else raise RequestValidationError.

Definition not_found {A} (id : Z) : M A :=
  raise (HTTPException HTTP_404_NOT_FOUND ("Atleta não encontrado no id: " +:+ str (VInt id))).

(** [GET /{id}]. *)
Definition get (id : Z) : M AtletaOut.t :=
  atleta ← first_atleta_by_pk_id id;
  match atleta with
  | None => not_found id
  | Some atleta => model_validate atleta
  end.

(** [PATCH /{id}]. *)
Definition patch (id : Z) (atleta_up : AtletaUpdate.t) : M AtletaOut.t :=
  atleta ← first_atleta_by_pk_id id;
  match atleta with
  | None => not_found id
  | Some atleta =>
      let data := AtletaUpdate.model_dump_exclude_unset atleta_up in
      try_except
        (for_each (map_to_list data) (λ kv, setattr atleta kv.1 kv.2);;
         commit engine;;
         refresh atleta;;
         model_validate atleta)
        (λ e,
           match e with
           | IntegrityError =>
               rollback;;
               raise (HTTPException 303
                        ("Já existe um atleta cadastrado com o cpf: "
                         +:+ str (dict_get data "cpf")))
           | e => raise e
           end)
  end.

(** [DELETE /{id}]. *)
Definition delete (id : Z) : M unit :=
  atleta ← first_atleta_by_pk_id id;
  match atleta with
  | None => not_found id
  | Some atleta =>
      delete_ atleta;;
      commit engine
  end.

End Handlers.

(** The status code each route declares for a handler that returns. *)
Definition post_status_code : Z := HTTP_201_CREATED.
Definition query_status_code : Z := HTTP_200_OK.
Definition get_status_code : Z := HTTP_200_OK.
Definition patch_status_code : Z := HTTP_200_OK.
Definition delete_status_code : Z := HTTP_204_NO_CONTENT.

End controller.

(** The status of the response: the route's when the handler returns, the
    exception's when it raises an [HTTPException]; the framework answers a
    refused parameter with 422 and any other exception with 500. *)
Definition response_status {A} (route_status : Z) (o : outcome A) : Z :=
  match o with
  | Ok _ => route_status
  | Raise (HTTPException code _) => code
  | Raise RequestValidationError => HTTP_422_UNPROCESSABLE_ENTITY
  | Raise _ => HTTP_500_INTERNAL_SERVER_ERROR
  end.

(** ** Notions the properties are stated with *)

(** [p] starts [s]. *)
Fixpoint starts_with (p s : list ascii) : bool :=
  match p, s with
  | [], _ => true
  | _ :: _, [] => false
  | c :: p', d :: s' => Ascii.eqb c d && starts_with p' s'
  end.

(** [p] occurs in [s]. *)
Fixpoint occurs_in (p s : list ascii) : bool :=
  starts_with p s || match s with [] => false | _ :: s' => occurs_in p s' end.

(** The contains filter of the glossary: [needle] is a substring of
    [hay], without regard to case. *)
Definition contains_ci (needle hay : string) : bool :=
  occurs_in (map lower (list_ascii_of_string needle))
            (map lower (list_ascii_of_string hay)).

(** The characters [LIKE] does not take literally. *)
Definition like_special (c : ascii) : bool :=
  Ascii.eqb c "%" || Ascii.eqb c "_" || Ascii.eqb c "\".

(** The rows a listing with the filters [nome] and [cpf] is about: a
    filter that is absent or empty selects every row. *)
Definition listed (nome cpf : option string) (kr : Z * gmap string value) : bool :=
  (if truthy nome then ilike "nome" ("%" +:+ default "" nome +:+ "%") kr.2 else true)
  && (if truthy cpf then column_eq "cpf" (default "" cpf) kr.2 else true).

(** The keywords [post] adds to the dumped input. *)
Definition created_row (now : datetime) (categoria : CategoriaModel.t)
    (centro_treinamento : CentroTreinamentoModel.t) (dump : gmap string value)
  : gmap string value :=
  <["created_at" := VDatetime now]>
    (<["categoria_id" := VInt (CategoriaModel.pk_id categoria)]>
       (<["centro_treinamento_id" := VInt (CentroTreinamentoModel.pk_id centro_treinamento)]>
          dump)).

(** The input carries a keyword that [post] sets itself. *)
Definition keyword_clash (dump : gmap string value) : Prop :=
  is_Some (dump !! "created_at") ∨ is_Some (dump !! "categoria_id")
  ∨ is_Some (dump !! "centro_treinamento_id").

#[global] Instance keyword_clash_dec dump : Decision (keyword_clash dump).
Proof. unfold keyword_clash. apply _. Defined.

(** The column [column] of the row [a] holds the key [pk]. *)
Definition references (a : gmap string value) (column : string) (pk : Z) : Prop :=
  a !! column = Some (VInt pk).

(** The display shape of the athlete [a]: its name, and the names of the
    category and of the training center its keys refer to, the empty
    string for a key that refers to no row. *)
Definition display_shape (t : Tables) (a : gmap string value) (item : AtletaListOut.t) : Prop :=
  AtletaListOut.nome item = getattr a "nome"
  ∧ ((∃ c, c ∈ categorias t ∧ references a "categoria_id" (CategoriaModel.pk_id c)
           ∧ AtletaListOut.categoria item = CategoriaModel.nome c)
     ∨ ((∀ c, c ∈ categorias t → ¬ references a "categoria_id" (CategoriaModel.pk_id c))
        ∧ AtletaListOut.categoria item = ""))
  ∧ ((∃ c, c ∈ centros_treinamento t
           ∧ references a "centro_treinamento_id" (CentroTreinamentoModel.pk_id c)
           ∧ AtletaListOut.centro_treinamento item = CentroTreinamentoModel.nome c)
     ∨ ((∀ c, c ∈ centros_treinamento t
              → ¬ references a "centro_treinamento_id" (CentroTreinamentoModel.pk_id c))
        ∧ AtletaListOut.centro_treinamento item = "")).

(** ** Sample data *)

Definition sample_now : datetime := Datetime 2024 5 17 10 30 0 0.

Definition sample_earlier : datetime := Datetime 2023 1 2 3 4 5 6.

Definition sample_athlete (nome cpf : string) (categoria_id centro_treinamento_id : Z)
  : gmap string value :=
  <["nome" := VStr nome]>
    (<["cpf" := VStr cpf]>
       (<["created_at" := VDatetime sample_earlier]>
          (<["categoria_id" := VInt categoria_id]>
             (<["centro_treinamento_id" := VInt centro_treinamento_id]> ∅)))).

Definition sample_ana : gmap string value := sample_athlete "Ana" "11122233344" 1 9.

Definition sample_bruno : gmap string value := sample_athlete "Bruno" "55566677788" 1 1.

(** One category, one training center, two athletes; Ana's training
    center key refers to no row. *)
Definition sample_db : Tables :=
  {| categorias := [CategoriaModel.mk 1 "CrossFit"];
     centros_treinamento := [CentroTreinamentoModel.mk 1 "CT Centro"];
     atletas := <[1 := sample_ana]> (<[2 := sample_bruno]> ∅) |}.

(** A [cpf] of more than 11 characters cannot be stored. *)
Definition sample_data_error (a : gmap string value) : bool :=
  match cpf_of a with
  | Some c => bool_decide (11 < len c)%nat
  | None => false
  end.

(** A key generator: one above the largest key in use. *)
Definition sample_next_pk_id (rows : gmap Z (gmap string value)) : Z :=
  1 + map_fold (λ k _ m, Z.max k m) 0 rows.

(** An engine whose table has no constraint besides the unique CPF and
    the primary key. *)
Definition sample_engine : Engine :=
  {| data_error := sample_data_error;
     constraint_error := λ _ _, false;
     next_pk_id := sample_next_pk_id |}.



(** An engine that refuses every row. *)
Definition sample_engine_refusing : Engine :=
  {| data_error := λ _, true;
     constraint_error := λ _ _, true;
     next_pk_id := sample_next_pk_id |}.

Definition sample_in (categoria centro_treinamento cpf : string) (others : gmap string value)
  : AtletaIn.t :=
  AtletaIn.mk (CategoriaIn.mk categoria) (CentroTreinamentoAtleta.mk centro_treinamento)
              cpf others.

Definition sample_maria : AtletaIn.t :=
  sample_in "CrossFit" "CT Centro" "99988877766" {["nome" := VStr "Maria"]}.

Definition sample_params : LimitOffsetParams := {| limit := 50; offset := 0 |}.

(** A payload that renames Bruno and sets his category key, as given. *)
Definition sample_patch : AtletaUpdate.t :=
  AtletaUpdate.mk (<["nome" := VStr "Bruna"]> {["categoria_id" := VInt 42]}).

(** A payload that gives Bruno the CPF of Ana. *)
Definition sample_patch_cpf : AtletaUpdate.t :=
  AtletaUpdate.mk {["cpf" := VStr "11122233344"]}.

(** Unfolds the monad's operations. *)
Ltac run_M :=
  unfold mbind, M_bind, mret, M_ret, raise, try_except.

(** No two athletes hold the same CPF. *)
Definition cpf_unique (rows : gmap Z (gmap string value)) : Prop :=
  ∀ k1 k2 r1 r2 c,
    rows !! k1 = Some r1 → rows !! k2 = Some r2 →
    cpf_of r1 = Some c → cpf_of r2 = Some c → k1 = k2.

(** The filter has no backslash. *)
Definition no_escape (nome : string) : bool :=
  forallb (λ c, negb (Ascii.eqb c "\")) (list_ascii_of_string nome).

(** The filter, letter case apart. *)
Definition fold_case (nome : string) : list ascii :=
  map lower (list_ascii_of_string nome).

Definition sample_joao : AtletaIn.t :=
  sample_in "CrossFit" "CT Centro" "12345678901" {["nome" := VStr "João"]}.

(** A payload that sets nothing. *)
Definition sample_patch_nothing : AtletaUpdate.t := AtletaUpdate.mk ∅.

(** A payload with a CPF the sample engine refuses. *)
Definition sample_patch_long : AtletaUpdate.t :=
  AtletaUpdate.mk {["cpf" := VStr "555666777889"]}.

(** * Properties *)

(** ** The engine *)

Lemma map_fold_max_bound (rows : gmap Z (gmap string value)) (k : Z) :
  is_Some (rows !! k) → (k ≤ map_fold (λ k _ m, Z.max k m) 0 rows)%Z.
Proof.
  revert k.
  apply (map_fold_weak_ind (λ r (m : gmap Z (gmap string value)),
           ∀ k, is_Some (m !! k) → (k ≤ r)%Z)).
  - intros k [x Hx]. by rewrite lookup_empty in Hx.
  - intros i x m r Hi IH k Hk.
    destruct (decide (i = k)) as [->|Hne]; [lia|].
    rewrite lookup_insert_ne in Hk by done.
    specialize (IH k Hk). lia.
Qed.

(** The key of the sample generator is not in use. *)
Lemma sample_next_pk_id_fresh (rows : gmap Z (gmap string value)) :
  rows !! sample_next_pk_id rows = None.
Proof.
  destruct (rows !! sample_next_pk_id rows) eqn:E; [|done].
  assert (sample_next_pk_id rows ≤ map_fold (λ k _ m, Z.max k m) 0 rows)%Z as H
    by (apply map_fold_max_bound; eauto).
  unfold sample_next_pk_id in H. lia.
Qed.

(** The unique constraint is violated exactly when another row holds the CPF. *)
Lemma cpf_taken_true rows skip c :
  cpf_taken rows skip c = true ↔
  ∃ k row, rows !! k = Some row ∧ Some k ≠ skip ∧ row !! "cpf" = Some (VStr c).
Proof.
  unfold cpf_taken. rewrite existsb_exists. split.
  - intros [[k row] [Hin Hb]]. simpl in Hb.
    apply andb_true_iff in Hb as [Hs Hc].
    apply negb_true_iff, bool_decide_eq_false in Hs.
    apply bool_decide_eq_true in Hc.
    exists k, row. split_and!; [|done|].
    + apply elem_of_map_to_list. by apply list_elem_of_In.
    + unfold cpf_of in Hc. destruct (row !! "cpf") as [[]|]; congruence.
  - intros (k & row & Hk & Hs & Hc). exists (k, row). split.
    + apply list_elem_of_In. by apply elem_of_map_to_list.
    + simpl. apply andb_true_iff. split.
      * by apply negb_true_iff, bool_decide_eq_false.
      * apply bool_decide_eq_true. unfold cpf_of. by rewrite Hc.
Qed.

Lemma find_none_iff {A} (p : A → bool) (l : list A) :
  find p l = None ↔ ∀ x, x ∈ l → p x = false.
Proof.
  split.
  - intros H x Hx. apply list_elem_of_In in Hx. by eapply find_none.
  - intros H. destruct (find p l) as [x|] eqn:E; [|done].
    apply find_some in E as [Hin Hp]. apply list_elem_of_In in Hin.
    rewrite (H x Hin) in Hp. done.
Qed.

Lemma update_row_lookup engine db id new t' :
  update_row engine db id new = Ok t' →
  atletas t' !! id = Some new
  ∧ (∀ id', id' ≠ id → atletas t' !! id' = atletas db !! id')
  ∧ categorias t' = categorias db ∧ centros_treinamento t' = centros_treinamento db.
Proof.
  unfold update_row. destruct (atletas db !! id) as [old|] eqn:Hold; [|done].
  case_bool_decide as Heq.
  - intros [= <-]. subst. done.
  - destruct (data_error engine new); [done|].
    destruct (_ || _); [done|]. intros [= <-]. simpl.
    split; [apply lookup_insert_eq|]. split; [|done].
    intros id' Hne. by rewrite lookup_insert_ne.
Qed.

(** ** Creating an athlete *)

Lemma call_kwargs_post now categoria centro dump :
  call_kwargs dump
    [("created_at", VDatetime now);
     ("categoria_id", VInt (CategoriaModel.pk_id categoria));
     ("centro_treinamento_id", VInt (CentroTreinamentoModel.pk_id centro))]
  = if bool_decide (keyword_clash dump) then Raise TypeError
    else Ok (created_row now categoria centro dump).
Proof.
  unfold call_kwargs, keyword_clash, created_row. simpl.
  rewrite orb_false_r.
  repeat case_bool_decide; simpl; try done; tauto.
Qed.

Lemma cpf_of_created_row now categoria centro atleta_in :
  cpf_of (created_row now categoria centro (AtletaIn.model_dump_exclude atleta_in))
  = Some (AtletaIn.cpf atleta_in).
Proof.
  unfold cpf_of, created_row, AtletaIn.model_dump_exclude.
  by rewrite !lookup_insert_ne, lookup_insert_eq by done.
Qed.

Section Post.
Variable engine : Engine.

(** What [post] does in a new session once both references resolve. *)
Lemma post_run now atleta_in db categoria centro :
  find (λ c, bool_decide (CategoriaModel.nome c = CategoriaIn.nome (AtletaIn.categoria atleta_in)))
       (categorias db) = Some categoria →
  find (λ c, bool_decide (CentroTreinamentoModel.nome c
                          = CentroTreinamentoAtleta.nome (AtletaIn.centro_treinamento atleta_in)))
       (centros_treinamento db) = Some centro →
  let dump := AtletaIn.model_dump_exclude atleta_in in
  let kw := created_row now categoria centro dump in
  let pk := next_pk_id engine (atletas db) in
  let db' := set_atletas db (<[pk := kw]> (atletas db)) in
  controller.post engine now atleta_in (begin db) =
    if bool_decide (keyword_clash dump)
    then (Raise (HTTPException HTTP_500_INTERNAL_SERVER_ERROR
                   "Ocorreu um erro ao inserir os dados no banco"), begin db)
    else if data_error engine kw
    then (Raise (HTTPException HTTP_500_INTERNAL_SERVER_ERROR
                   "Ocorreu um erro ao inserir os dados no banco"),
          {| committed := db; working := db;
             objects := [{| state := Transient; attrs := kw |}];
             is_active := true |})
    else if constraint_error engine db kw
            || bool_decide (is_Some (atletas db !! pk))
            || cpf_taken (atletas db) None (AtletaIn.cpf atleta_in)
    then (Raise (HTTPException 303
                   ("Já existe um atleta cadastrado com o cpf: " +:+ AtletaIn.cpf atleta_in)),
          {| committed := db; working := db;
             objects := [{| state := Transient; attrs := kw |}];
             is_active := true |})
    else (Ok (AtletaOut.mk pk kw),
          {| committed := db'; working := db';
             objects := [{| state := Persistent pk; attrs := kw |}];
             is_active := true |}).
Proof.
  intros Hcat Hct dump kw pk db'.
  assert (cpf_of kw = Some (AtletaIn.cpf atleta_in)) as Hcpf by apply cpf_of_created_row.
  unfold controller.post. run_M.
  unfold first_categoria_by_nome, first_centro_treinamento_by_nome.
  cbv zeta. unfold begin. cbn [working]. rewrite Hcat. cbn [working]. rewrite Hct.
  rewrite call_kwargs_post. fold dump. fold kw.
  case_bool_decide as Hclash; [reflexivity|].
  unfold AtletaModel_new, add, flush, commit, refresh, model_validate, rollback. run_M.
  simpl. unfold flush_object. simpl. unfold insert_row. cbv zeta. fold pk.
  destruct (data_error engine kw) eqn:Hde; [reflexivity|].
  rewrite Hcpf. simpl from_option.
  destruct (_ || _) eqn:Hint; [reflexivity|].
  fold db'. unfold flush. simpl. unfold flush_object. simpl. unfold update_row. simpl.
  rewrite lookup_insert_eq. rewrite bool_decide_eq_true_2 by done.
  simpl. rewrite lookup_insert_eq. reflexivity.
Qed.

(** C1. [post] resolves the category name first and the training-center
    name second, by exact match. When no category has the given name it
    raises the 400 exception that names the category, whatever the
    training center; when the category exists and no training center has
    the given name it raises the 400 exception that names the training
    center. In both cases the session is left as it was: nothing is
    written. *)
Theorem post_reference_not_found now atleta_in s :
  let categoria_nome := CategoriaIn.nome (AtletaIn.categoria atleta_in) in
  let ct_nome := CentroTreinamentoAtleta.nome (AtletaIn.centro_treinamento atleta_in) in
  ((∀ c, c ∈ categorias (working s) → CategoriaModel.nome c ≠ categoria_nome) →
   controller.post engine now atleta_in s
   = (Raise (HTTPException 400 ("A categoria " +:+ categoria_nome +:+ " não foi encontrada.")),
      s))
  ∧ ((∃ c, c ∈ categorias (working s) ∧ CategoriaModel.nome c = categoria_nome) →
     (∀ c, c ∈ centros_treinamento (working s) → CentroTreinamentoModel.nome c ≠ ct_nome) →
     controller.post engine now atleta_in s
     = (Raise (HTTPException 400
                 ("O centro de treinamento " +:+ ct_nome +:+ " não foi encontrado.")),
        s)).
Proof.
  intros categoria_nome ct_nome. split.
  - intros Hnone.
    unfold controller.post. run_M. unfold first_categoria_by_nome.
    fold categoria_nome.
    replace (find _ (categorias (working s))) with (@None CategoriaModel.t); [done|].
    symmetry. apply find_none_iff. intros c Hc.
    apply bool_decide_eq_false. by apply Hnone.
  - intros (c & Hc & Hname) Hnone.
    unfold controller.post. run_M.
    unfold first_categoria_by_nome, first_centro_treinamento_by_nome.
    fold categoria_nome. fold ct_nome.
    destruct (find _ (categorias (working s))) as [c'|] eqn:Hfind.
    + replace (find _ (centros_treinamento (working s)))
        with (@None CentroTreinamentoModel.t); [done|].
      symmetry. apply find_none_iff. intros ct Hct.
      apply bool_decide_eq_false. by apply Hnone.
    + exfalso. rewrite find_none_iff in Hfind.
      specialize (Hfind c Hc). by apply bool_decide_eq_false in Hfind.
Qed.


(** C3. Every create that returns has resolved both names, and returns
    the record it stored: under a key that was not in use, with
    [created_at] the server's clock reading (the input carried no
    [created_at]: a request that carries one does not return), with the
    two foreign keys the keys of the resolved rows, and with the fields of
    the input as given. Such creates exist: when both names resolve, no
    keyword is given twice, the engine accepts the row, the key it
    generates is not in use and the CPF is free, [post] returns. *)
Theorem post_success now atleta_in db :
  let dump := AtletaIn.model_dump_exclude atleta_in in
  let find_categoria :=
    find (λ c, bool_decide (CategoriaModel.nome c
                            = CategoriaIn.nome (AtletaIn.categoria atleta_in)))
         (categorias db) in
  let find_centro :=
    find (λ c, bool_decide (CentroTreinamentoModel.nome c
                            = CentroTreinamentoAtleta.nome
                                (AtletaIn.centro_treinamento atleta_in)))
         (centros_treinamento db) in
  (∀ out s', controller.post engine now atleta_in (begin db) = (Ok out, s') →
     ∃ categoria centro,
       find_categoria = Some categoria ∧ find_centro = Some centro
       ∧ AtletaOut.fields out !! "created_at" = Some (VDatetime now)
       ∧ dump !! "created_at" = None
       ∧ AtletaOut.fields out !! "categoria_id" = Some (VInt (CategoriaModel.pk_id categoria))
       ∧ AtletaOut.fields out !! "centro_treinamento_id"
         = Some (VInt (CentroTreinamentoModel.pk_id centro))
       ∧ (∀ k v, dump !! k = Some v → AtletaOut.fields out !! k = Some v)
       ∧ atletas db !! AtletaOut.pk_id out = None
       ∧ committed s' = working s'
       ∧ atletas (committed s') = <[AtletaOut.pk_id out := AtletaOut.fields out]> (atletas db))
  ∧ (∀ categoria centro,
       find_categoria = Some categoria → find_centro = Some centro →
       ¬ keyword_clash dump →
       data_error engine (created_row now categoria centro dump) = false →
       constraint_error engine db (created_row now categoria centro dump) = false →
       atletas db !! next_pk_id engine (atletas db) = None →
       cpf_taken (atletas db) None (AtletaIn.cpf atleta_in) = false →
       ∃ out s', controller.post engine now atleta_in (begin db) = (Ok out, s')).
Proof.
  intros dump find_categoria find_centro. split.
  - intros out s' Hpost.
    destruct find_categoria as [categoria|] eqn:Hcat.
    2:{ unfold controller.post in Hpost. revert Hpost. run_M.
        unfold first_categoria_by_nome. unfold begin. cbn [working].
        unfold find_categoria in Hcat. rewrite Hcat. done. }
    destruct find_centro as [centro|] eqn:Hct.
    2:{ unfold controller.post in Hpost. revert Hpost. run_M.
        unfold first_categoria_by_nome, first_centro_treinamento_by_nome.
        unfold begin. cbn [working].
        unfold find_categoria in Hcat. rewrite Hcat. cbn [working].
        unfold find_centro in Hct. rewrite Hct. done. }
    exists categoria, centro.
    rewrite (post_run now atleta_in db categoria centro Hcat Hct) in Hpost.
    cbv zeta in Hpost. fold dump in Hpost.
    case_bool_decide as Hclash; [done|].
    destruct (data_error engine _); [done|].
    destruct (_ || _) eqn:Hint; [done|].
    apply orb_false_iff in Hint as [Hint _]. apply orb_false_iff in Hint as [_ Hpk].
    apply bool_decide_eq_false in Hpk.
    injection Hpost as <- <-. simpl.
    assert (dump !! "created_at" = None ∧ dump !! "categoria_id" = None
            ∧ dump !! "centro_treinamento_id" = None) as (H1 & H2 & H3).
    { unfold keyword_clash in Hclash.
      destruct (dump !! "created_at") eqn:E1; [exfalso; apply Hclash; eauto|].
      destruct (dump !! "categoria_id") eqn:E2; [exfalso; apply Hclash; eauto|].
      destruct (dump !! "centro_treinamento_id") eqn:E3; [exfalso; apply Hclash; eauto|].
      done. }
    unfold created_row. split_and!; try done.
    + by rewrite lookup_insert_eq.
    + by rewrite lookup_insert_ne, lookup_insert_eq.
    + by rewrite !lookup_insert_ne, lookup_insert_eq by done.
    + intros k v Hk.
      rewrite !lookup_insert_ne; [done|congruence..].
    + by apply eq_None_not_Some.
  - intros categoria centro Hcat Hct Hclash Hde Hce Hpk Htaken.
    rewrite (post_run now atleta_in db categoria centro Hcat Hct).
    cbv zeta. fold dump. rewrite bool_decide_eq_false_2 by done.
    rewrite Hde, Hce, Htaken.
    rewrite bool_decide_eq_false_2 by (rewrite Hpk; by intros [? ?]).
    simpl. eauto.
Qed.

End Post.

(** ** Reading, updating and deleting by id *)

Lemma first_atleta_begin id db :
  first_atleta_by_pk_id id (begin db) =
    match atletas db !! id with
    | None => (Ok None, begin db)
    | Some row =>
        (Ok (Some 0%nat),
         {| committed := db; working := db;
            objects := [{| state := Persistent id; attrs := row |}];
            is_active := true |})
    end.
Proof.
  unfold first_atleta_by_pk_id, begin. simpl.
  by destruct (atletas db !! id).
Qed.

Lemma set_objects_same s h o :
  objects s !! h = Some o →
  set_objects s (<[h := set_attrs o (attrs o)]> (objects s)) = s.
Proof.
  intros H. destruct s as [c w os], o as [st a]. unfold set_objects, set_attrs. simpl in *.
  by rewrite list_insert_id.
Qed.

(** The loop of [patch] over the items of the payload, on the instance [h]. *)
Lemma for_each_setattr h (l : list (string * value)) :
  ∀ s o, objects s !! h = Some o →
  for_each l (λ kv, setattr h kv.1 kv.2) s
  = (Ok tt,
     set_objects s
       (<[h := set_attrs o (foldl (λ a kv, <[kv.1 := kv.2]> a) (attrs o) l)]> (objects s))).
Proof.
  induction l as [|[k v] l IH]; intros s o Ho.
  - simpl. run_M. by rewrite set_objects_same.
  - simpl. run_M. unfold setattr at 1. rewrite Ho.
    set (o1 := set_attrs o (<[k:=v]> (attrs o))).
    rewrite (IH _ o1).
    + unfold set_objects. simpl. by rewrite list_insert_insert_eq.
    + simpl. apply list_lookup_insert_eq. by eapply lookup_lt_Some.
Qed.

Lemma foldl_insert_union (l : list (string * value)) :
  ∀ row : gmap string value, NoDup l.*1 →
  foldl (λ a kv, <[kv.1 := kv.2]> a) row l = list_to_map l ∪ row.
Proof.
  induction l as [|[k v] l IH]; intros row Hnd.
  - simpl. by rewrite (left_id_L ∅ (∪)).
  - simpl in *. apply NoDup_cons in Hnd as [Hk Hnd].
    rewrite IH by done.
    rewrite <- insert_union_l.
    symmetry. apply insert_union_r. by apply not_elem_of_list_to_map_1.
Qed.

(** Assigning the items of a dictionary one by one: its fields over the
    row's. *)
Lemma setattr_items (data row : gmap string value) :
  foldl (λ a kv, <[kv.1 := kv.2]> a) row (map_to_list data) = data ∪ row.
Proof.
  rewrite foldl_insert_union by apply NoDup_fst_map_to_list.
  by rewrite list_to_map_to_list.
Qed.

Section ById.
Variable engine : Engine.

Lemma get_run id db :
  controller.get id (begin db) =
    match atletas db !! id with
    | None =>
        (Raise (HTTPException 404 ("Atleta não encontrado no id: " +:+ str (VInt id))),
         begin db)
    | Some row =>
        (Ok (AtletaOut.mk id row),
         {| committed := db; working := db;
            objects := [{| state := Persistent id; attrs := row |}];
            is_active := true |})
    end.
Proof.
  unfold controller.get. run_M. rewrite first_atleta_begin.
  by destruct (atletas db !! id).
Qed.

(** What [patch] does in a new session on a row that exists: the outcome
    of the UPDATE decides. *)
Lemma patch_run id atleta_up db row :
  atletas db !! id = Some row →
  let data := AtletaUpdate.model_dump_exclude_unset atleta_up in
  let new := data ∪ row in
  controller.patch engine id atleta_up (begin db) =
    match update_row engine db id new with
    | Ok t' =>
        (Ok (AtletaOut.mk id new),
         {| committed := t'; working := t';
            objects := [{| state := Persistent id; attrs := new |}];
            is_active := true |})
    | Raise IntegrityError =>
        (Raise (HTTPException 303
                  ("Já existe um atleta cadastrado com o cpf: " +:+ str (dict_get data "cpf"))),
         {| committed := db; working := db;
            objects := [{| state := Persistent id; attrs := row |}];
            is_active := true |})
    | Raise e =>
        (Raise e,
         {| committed := db; working := db;
            objects := [{| state := Persistent id; attrs := row |}];
            is_active := false |})
    end.
Proof.
  intros Hrow data new.
  unfold controller.patch. run_M. rewrite first_atleta_begin, Hrow.
  fold data.
  rewrite (for_each_setattr 0 _ _ {| state := Persistent id; attrs := row |})
    by reflexivity.
  simpl attrs. rewrite setattr_items. fold new.
  unfold commit, flush. run_M. simpl.
  unfold flush_object. simpl.
  destruct (update_row engine db id new) as [t'|e] eqn:Hup.
  - apply update_row_lookup in Hup as (Hnew & _).
    unfold refresh, model_validate. simpl. rewrite Hnew. reflexivity.
  - unfold expire. simpl. rewrite Hrow.
    destruct e; try reflexivity.
    unfold rollback. simpl. unfold expire. simpl. by rewrite Hrow.
Qed.

Lemma delete_run id db :
  controller.delete engine id (begin db) =
    match atletas db !! id with
    | None =>
        (Raise (HTTPException 404 ("Atleta não encontrado no id: " +:+ str (VInt id))),
         begin db)
    | Some row =>
        (Ok tt,
         {| committed := delete_row db id; working := delete_row db id;
            objects := [{| state := Transient; attrs := row |}];
            is_active := true |})
    end.
Proof.
  unfold controller.delete. run_M. rewrite first_atleta_begin.
  destruct (atletas db !! id); reflexivity.
Qed.

(** C6. [get id] returns the full record of the row stored under [id]
    when there is one, and raises the 404 exception whose message ends
    with the id when there is none; either way the tables are what they
    were. *)
Theorem get_by_id id db :
  (∀ row, atletas db !! id = Some row →
     ∃ s', controller.get id (begin db) = (Ok (AtletaOut.mk id row), s')
           ∧ committed s' = db ∧ working s' = db)
  ∧ (atletas db !! id = None →
     controller.get id (begin db)
     = (Raise (HTTPException 404 ("Atleta não encontrado no id: " +:+ pretty id)), begin db)).
Proof.
  split.
  - intros row Hrow. rewrite get_run, Hrow. eauto.
  - intros Hnone. by rewrite get_run, Hnone.
Qed.

(** C7. An update of an existing row that returns gives back the record
    under the same id in which every field the payload sets has the
    payload's value as given (a foreign-key column like any other) and
    every field the payload does not set has the row's prior value; this
    record is what the store then holds under the id, and the other rows
    are untouched. Such updates exist: when the engine accepts the updated
    row and no other row holds its CPF, [patch] returns. *)
Theorem patch_success id atleta_up db row :
  atletas db !! id = Some row →
  let data := AtletaUpdate.model_dump_exclude_unset atleta_up in
  (∀ out s', controller.patch engine id atleta_up (begin db) = (Ok out, s') →
     AtletaOut.pk_id out = id
     ∧ (∀ k v, data !! k = Some v → AtletaOut.fields out !! k = Some v)
     ∧ (∀ k, data !! k = None → AtletaOut.fields out !! k = row !! k)
     ∧ atletas (committed s') !! id = Some (AtletaOut.fields out)
     ∧ (∀ id', id' ≠ id → atletas (committed s') !! id' = atletas db !! id')
     ∧ working s' = committed s')
  ∧ (data_error engine (data ∪ row) = false →
     constraint_error engine db (data ∪ row) = false →
     (∀ c, cpf_of (data ∪ row) = Some c → cpf_taken (atletas db) (Some id) c = false) →
     ∃ out s', controller.patch engine id atleta_up (begin db) = (Ok out, s')).
Proof.
  intros Hrow data.
  pose proof (patch_run id atleta_up db row Hrow) as Hrun.
  cbv zeta in Hrun. fold data in Hrun. split.
  - intros out s'. rewrite Hrun.
    destruct (update_row engine db id (data ∪ row)) as [t'|e] eqn:Hup.
    2:{ by destruct e. }
    intros [= <- <-]. simpl.
    apply update_row_lookup in Hup as (Hnew & Hother & _).
    split_and!; try done.
    + intros k v Hk. by apply lookup_union_Some_l.
    + intros k Hk. by apply lookup_union_r.
  - intros Hde Hce Hfree. rewrite Hrun.
    unfold update_row. rewrite Hrow.
    case_bool_decide; [eauto|]. rewrite Hde, Hce.
    destruct (cpf_of (data ∪ row)) as [c|] eqn:Hc; simpl.
    + rewrite (Hfree c eq_refl). rewrite andb_false_r. eauto.
    + rewrite andb_false_r. eauto.
Qed.


(** C9. [delete id] raises the 404 exception whose message ends with the
    id when no row is stored under [id], and leaves the session as it was.
    Otherwise it returns nothing, on the route whose status is 204; the
    store then holds the other athletes and no row under [id], the other
    tables as before, and a [get id] in a later session raises the 404
    exception. *)
Theorem delete_by_id id db :
  (atletas db !! id = None →
   controller.delete engine id (begin db)
   = (Raise (HTTPException 404 ("Atleta não encontrado no id: " +:+ pretty id)), begin db))
  ∧ (∀ row, atletas db !! id = Some row →
     ∃ s', controller.delete engine id (begin db) = (Ok tt, s')
           ∧ response_status controller.delete_status_code (Ok tt) = 204
           ∧ atletas (committed s') = base.delete id (atletas db)
           ∧ categorias (committed s') = categorias db
           ∧ centros_treinamento (committed s') = centros_treinamento db
           ∧ working s' = committed s'
           ∧ (controller.get id (begin (committed s'))).1
             = Raise (HTTPException 404 ("Atleta não encontrado no id: " +:+ pretty id))).
Proof.
  split.
  - intros Hnone. by rewrite delete_run, Hnone.
  - intros row Hrow. rewrite delete_run, Hrow.
    eexists. split; [reflexivity|]. simpl. split_and!; try done.
    rewrite get_run. simpl. by rewrite lookup_delete_eq.
Qed.

End ById.

(** ** The listing *)

(** The statement [query] builds selects the rows the filters are about. *)
Lemma selected_listed nome cpf t :
  selected
    (let stmt := select_AtletaModel in
     let stmt := if truthy nome
                 then where_ stmt (ilike "nome" ("%" +:+ default "" nome +:+ "%"))
                 else stmt in
     if truthy cpf then where_ stmt (column_eq "cpf" (default "" cpf)) else stmt) t
  = List.filter (listed nome cpf) (map_to_list (atletas t)).
Proof.
  unfold selected, listed. apply filter_ext. intros [k a].
  destruct (truthy nome), (truthy cpf); simpl;
    rewrite ?andb_true_r; reflexivity.
Qed.

Lemma query_run params nome cpf s :
  controller.query params nome cpf s
  = (Ok (paginate params
           (map (λ kr, display_item (load (working s) kr))
                (List.filter (listed nome cpf) (map_to_list (atletas (working s)))))),
     s).
Proof.
  unfold controller.query. run_M. unfold execute_all.
  cbv zeta. rewrite selected_listed. rewrite map_map. reflexivity.
Qed.

(** The item built from a loaded row is the display shape of the row. *)
Lemma display_item_shape t kr :
  display_shape t kr.2 (display_item (load t kr)).
Proof.
  unfold display_shape, display_item, load. simpl. split; [done|]. split.
  - unfold related_categoria, references.
    destruct (kr.2 !! "categoria_id") as [[| k | |]|] eqn:Hk;
      try (right; split; [intros c _; congruence|done]).
    destruct (find _ (categorias t)) as [c|] eqn:Hfind.
    + left. exists c. apply find_some in Hfind as [Hin Hpk].
      apply bool_decide_eq_true in Hpk. split_and!; [by apply list_elem_of_In|congruence|done].
    + right. split; [|done]. intros c Hc [= Heq]. subst k.
      rewrite find_none_iff in Hfind. specialize (Hfind c Hc).
      by apply bool_decide_eq_false in Hfind.
  - unfold related_centro_treinamento, references.
    destruct (kr.2 !! "centro_treinamento_id") as [[| k | |]|] eqn:Hk;
      try (right; split; [intros c _; congruence|done]).
    destruct (find _ (centros_treinamento t)) as [c|] eqn:Hfind.
    + left. exists c. apply find_some in Hfind as [Hin Hpk].
      apply bool_decide_eq_true in Hpk. split_and!; [by apply list_elem_of_In|congruence|done].
    + right. split; [|done]. intros c Hc [= Heq]. subst k.
      rewrite find_none_iff in Hfind. specialize (Hfind c Hc).
      by apply bool_decide_eq_false in Hfind.
Qed.

(** C5. A listing returns a page, and writes nothing. There is one item
    for each row the filters are about, in the same order, and the item is
    the display shape of its row: the three fields of [AtletaListOut.t],
    the name of the row and the names of its category and training
    center, the empty string where the key refers to no row. The page
    counts all these items in [total], and its [items] are the slice
    [offset, offset + limit) of them: the pagination comes after the
    projection of every row. *)
Theorem query_projects_then_paginates params nome cpf s :
  ∃ page all_items,
    controller.query params nome cpf s = (Ok page, s)
    ∧ Forall2 (λ kr item, display_shape (working s) kr.2 item)
              (List.filter (listed nome cpf) (map_to_list (atletas (working s)))) all_items
    ∧ items page = take (limit params) (drop (offset params) all_items)
    ∧ total page = length all_items
    ∧ page_limit page = limit params ∧ page_offset page = offset params.
Proof.
  rewrite query_run. eexists _, _. split; [reflexivity|]. simpl.
  split_and!; try reflexivity.
  apply Forall2_fmap_r, Forall_Forall2_diag, Forall_forall.
  intros kr _. apply display_item_shape.
Qed.

(** C10, as amended. The body of the handler treats an empty [nome] and
    an empty [cpf] as absent filters. A request with an empty [nome] is
    served as one without [nome]; a request with an empty [cpf] does not
    reach the body: the parameter requires 11 characters, and the request
    is refused. *)
Theorem query_empty_filter params nome cpf s :
  controller.query params (Some "") cpf s = controller.query params None cpf s
  ∧ controller.query params nome (Some "") s = controller.query params nome None s
  ∧ controller.query_endpoint params (Some "") cpf s
    = controller.query_endpoint params None cpf s
  ∧ controller.query_endpoint params nome (Some "") s = (Raise RequestValidationError, s).
Proof.
  split_and!.
  - reflexivity.
  - reflexivity.
  - reflexivity.
  - unfold controller.query_endpoint. simpl. by rewrite andb_false_r.
Qed.

(** C10, as stated, fails: on the sample store a listing with an empty
    [cpf] is refused, while the listing without filters returns both
    athletes. *)
Lemma query_endpoint_empty_cpf :
  controller.query_endpoint sample_params None (Some "") (begin sample_db)
  = (Raise RequestValidationError, begin sample_db)
  ∧ controller.query_endpoint sample_params None None (begin sample_db)
    = (Ok {| items := [AtletaListOut.mk (VStr "Bruno") "CrossFit" "CT Centro";
                       AtletaListOut.mk (VStr "Ana") "CrossFit" ""];
             total := 2; page_limit := 50; page_offset := 0 |},
       begin sample_db).
Proof. split; vm_compute; reflexivity. Qed.

(** C4, at the input where the code departs from it. Neither name of the
    sample store contains an underscore, and the listing with the filter
    [_] returns both athletes: the filter is sent as a [LIKE] pattern, in
    which [_] stands for any character. *)
Lemma query_nome_underscore :
  contains_ci "_" "Ana" = false
  ∧ contains_ci "_" "Bruno" = false
  ∧ controller.query_endpoint sample_params (Some "_") None (begin sample_db)
    = (Ok {| items := [AtletaListOut.mk (VStr "Bruno") "CrossFit" "CT Centro";
                       AtletaListOut.mk (VStr "Ana") "CrossFit" ""];
             total := 2; page_limit := 50; page_offset := 0 |},
       begin sample_db).
Proof. split_and!; vm_compute; reflexivity. Qed.

(** ** Patterns without special characters *)

Lemma like_match_percent_nil s : like_match ["%"%char] s = true.
Proof. induction s as [|d s IH]; [done|]. simpl in *. by rewrite IH. Qed.

Lemma like_match_literal c p s :
  like_special c = false →
  like_match (c :: p) s
  = match s with [] => false | d :: s' => Ascii.eqb c d && like_match p s' end.
Proof.
  unfold like_special. intros H.
  apply orb_false_iff in H as [H H3]. apply orb_false_iff in H as [H1 H2].
  simpl. by rewrite H1, H2, H3.
Qed.

Lemma like_match_prefix p :
  forallb (λ c, negb (like_special c)) p = true →
  ∀ s, like_match (p ++ ["%"%char]) s = starts_with p s.
Proof.
  induction p as [|c p IH]; intros Hp s.
  - simpl app. rewrite like_match_percent_nil. by destruct s.
  - simpl in Hp. apply andb_true_iff in Hp as [Hc Hp]. apply negb_true_iff in Hc.
    simpl app. rewrite like_match_literal by done.
    destruct s as [|d s]; [done|]. simpl. by rewrite IH.
Qed.

Lemma like_match_percent p s :
  like_match ("%"%char :: p) s
  = like_match p s || match s with [] => false | _ :: s' => like_match ("%"%char :: p) s' end.
Proof. destruct s; reflexivity. Qed.

Lemma like_match_contains p :
  forallb (λ c, negb (like_special c)) p = true →
  ∀ s, like_match ("%"%char :: p ++ ["%"%char]) s = occurs_in p s.
Proof.
  intros Hp s. induction s as [|d s IH].
  - rewrite like_match_percent, like_match_prefix by done. reflexivity.
  - rewrite like_match_percent, like_match_prefix, IH by done. reflexivity.
Qed.

Lemma lower_not_special c : like_special c = false → like_special (lower c) = false.
Proof.
  intros H. unfold lower.
  destruct (_ && _)%N eqn:E; [|done].
  destruct c as [[] [] [] [] [] [] [] []]; vm_compute in E; try discriminate; reflexivity.
Qed.

Lemma list_ascii_of_string_app s1 s2 :
  list_ascii_of_string (s1 +:+ s2)
  = (list_ascii_of_string s1 ++ list_ascii_of_string s2)%list.
Proof. induction s1 as [|c s1 IH]; simpl; [done|]. by rewrite IH. Qed.

(** X1. For a filter of ASCII characters without [%], [_] and backslash,
    and a row whose name, if it has one, is of ASCII characters, the
    criterion [query] puts on [nome] is the contains filter: the row has a
    name, and the filter occurs in it without regard to the case of the
    letters. (Outside ASCII the engine folds case by its locale, and the
    equivalence is not claimed.) *)
Lemma ilike_contains nome a :
  is_ascii nome = true →
  forallb (λ c, negb (like_special c)) (list_ascii_of_string nome) = true →
  (∀ s, a !! "nome" = Some (VStr s) → is_ascii s = true) →
  ilike "nome" ("%" +:+ nome +:+ "%") a
  = match a !! "nome" with
    | Some (VStr s) => contains_ci nome s
    | _ => false
    end.
Proof.
  intros _ Hn _. unfold ilike, contains_ci.
  destruct (a !! "nome") as [[| | s |]|]; try reflexivity.
  rewrite !list_ascii_of_string_app.
  cbn [list_ascii_of_string app map].
  change (lower "%") with "%"%char. rewrite map_app. cbn [map].
  change (lower "%") with "%"%char.
  apply like_match_contains.
  rewrite forallb_forall in *. intros c Hc.
  apply in_map_iff in Hc as (c' & <- & Hc').
  apply negb_true_iff, lower_not_special, negb_true_iff. by apply Hn.
Qed.

(** ** The properties on the sample store *)

(** Neither "Yoga" nor "CT Norte" is in the sample store. *)
Lemma post_reference_not_found_witness :
  controller.post sample_engine sample_now
    (sample_in "Yoga" "CT Norte" "99988877766" ∅) (begin sample_db)
  = (Raise (HTTPException 400 "A categoria Yoga não foi encontrada."), begin sample_db)
  ∧ controller.post sample_engine sample_now
      (sample_in "CrossFit" "CT Norte" "99988877766" ∅) (begin sample_db)
    = (Raise (HTTPException 400 "O centro de treinamento CT Norte não foi encontrado."),
       begin sample_db).
Proof.
  split.
  - apply (proj1 (post_reference_not_found sample_engine sample_now
                    (sample_in "Yoga" "CT Norte" "99988877766" ∅) (begin sample_db))).
    intros c Hc. apply list_elem_of_singleton in Hc as ->. simpl. discriminate.
  - apply (proj2 (post_reference_not_found sample_engine sample_now
                    (sample_in "CrossFit" "CT Norte" "99988877766" ∅) (begin sample_db))).
    + exists (CategoriaModel.mk 1 "CrossFit").
      split; [apply list_elem_of_singleton|]; reflexivity.
    + intros c Hc. apply list_elem_of_singleton in Hc as ->. simpl. discriminate.
Defined.



(** Maria is created, with the clock's reading as her timestamp. *)
Lemma post_success_witness :
  ∃ out s',
    controller.post sample_engine sample_now sample_maria (begin sample_db) = (Ok out, s')
    ∧ AtletaOut.fields out !! "created_at" = Some (VDatetime sample_now)
    ∧ atletas sample_db !! AtletaOut.pk_id out = None.
Proof.
  destruct (proj2 (post_success sample_engine sample_now sample_maria sample_db)
              (CategoriaModel.mk 1 "CrossFit") (CentroTreinamentoModel.mk 1 "CT Centro")
              eq_refl eq_refl) as (out & s' & Hpost).
  - apply (bool_decide_eq_false_1 _). vm_compute. reflexivity.
  - vm_compute. reflexivity.
  - vm_compute. reflexivity.
  - vm_compute. reflexivity.
  - vm_compute. reflexivity.
  - exists out, s'. split; [exact Hpost|].
    destruct (proj1 (post_success sample_engine sample_now sample_maria sample_db)
                out s' Hpost)
      as (categoria & centro & _ & _ & Hcreated & _ & _ & _ & _ & Hfresh & _).
    split; [exact Hcreated|exact Hfresh].
Defined.

(** Bruno is stored under 2; nothing is stored under 7. *)
Lemma get_by_id_witness :
  (∃ s', controller.get 2 (begin sample_db) = (Ok (AtletaOut.mk 2 sample_bruno), s')
         ∧ committed s' = sample_db ∧ working s' = sample_db)
  ∧ controller.get 7 (begin sample_db)
    = (Raise (HTTPException 404 "Atleta não encontrado no id: 7"), begin sample_db).
Proof.
  split.
  - apply (proj1 (get_by_id 2 sample_db)). vm_compute. reflexivity.
  - apply (proj2 (get_by_id 7 sample_db)). vm_compute. reflexivity.
Defined.

(** Bruno is renamed and given the category key 42, which refers to no
    category; his CPF stays. *)
Lemma patch_success_witness :
  ∃ out s',
    controller.patch sample_engine 2 sample_patch (begin sample_db) = (Ok out, s')
    ∧ AtletaOut.fields out !! "nome" = Some (VStr "Bruna")
    ∧ AtletaOut.fields out !! "categoria_id" = Some (VInt 42)
    ∧ AtletaOut.fields out !! "cpf" = Some (VStr "55566677788").
Proof.
  destruct (proj2 (patch_success sample_engine 2 sample_patch sample_db sample_bruno
                     eq_refl)) as (out & s' & Hpatch).
  - vm_compute. reflexivity.
  - vm_compute. reflexivity.
  - intros c Hc. vm_compute in Hc. injection Hc as <-. vm_compute. reflexivity.
  - exists out, s'. split; [exact Hpatch|].
    destruct (proj1 (patch_success sample_engine 2 sample_patch sample_db sample_bruno
                       eq_refl) out s' Hpatch) as (_ & Hset & Hkept & _).
    split_and!.
    + apply Hset. vm_compute. reflexivity.
    + apply Hset. vm_compute. reflexivity.
    + rewrite Hkept by (vm_compute; reflexivity). vm_compute. reflexivity.
Defined.


(** Nothing to delete under 7; Bruno is deleted, and then not found. *)
Lemma delete_by_id_witness :
  controller.delete sample_engine 7 (begin sample_db)
  = (Raise (HTTPException 404 "Atleta não encontrado no id: 7"), begin sample_db)
  ∧ ∃ s', controller.delete sample_engine 2 (begin sample_db) = (Ok tt, s')
          ∧ atletas (committed s') = {[1 := sample_ana]}
          ∧ (controller.get 2 (begin (committed s'))).1
            = Raise (HTTPException 404 "Atleta não encontrado no id: 2").
Proof.
  split.
  - apply (proj1 (delete_by_id sample_engine 7 sample_db)). vm_compute. reflexivity.
  - destruct (proj2 (delete_by_id sample_engine 2 sample_db) sample_bruno)
      as (s' & Hdel & _ & Hrows & _ & _ & _ & Hget).
    + vm_compute. reflexivity.
    + exists s'. split_and!; [exact Hdel| |exact Hget].
      rewrite Hrows. vm_compute. reflexivity.
Defined.

(** The filter "an" and the name "Ana" are ASCII, and the filter has no
    special character. *)
Lemma ilike_contains_witness :
  ilike "nome" "%an%" sample_ana = contains_ci "an" "Ana".
Proof.
  apply (ilike_contains "an" sample_ana).
  - vm_compute. reflexivity.
  - vm_compute. reflexivity.
  - intros s Hs. vm_compute in Hs. injection Hs as <-. vm_compute. reflexivity.
Defined.

(** * Further properties *)

(** ** How the handlers end *)

Section Ends.
Variable engine : Engine.

(** [post] in a new session, when a reference does not resolve. *)
Lemma post_run_unresolved now atleta_in db :
  find (λ c, bool_decide (CategoriaModel.nome c = CategoriaIn.nome (AtletaIn.categoria atleta_in)))
       (categorias db) = None
  ∨ find (λ c, bool_decide (CentroTreinamentoModel.nome c
                            = CentroTreinamentoAtleta.nome
                                (AtletaIn.centro_treinamento atleta_in)))
         (centros_treinamento db) = None →
  ∃ detail, controller.post engine now atleta_in (begin db)
            = (Raise (HTTPException 400 detail), begin db).
Proof.
  intros Hnone. unfold controller.post. run_M.
  unfold first_categoria_by_nome, first_centro_treinamento_by_nome.
  cbv zeta. unfold begin. cbn [working].
  destruct (find _ (categorias db)) as [categoria|] eqn:Hcat; [|eauto].
  cbn [working]. destruct Hnone as [?|Hct]; [done|]. rewrite Hct. eauto.
Qed.

(** How [post] ends in a new session: it raises and the tables are
    untouched, or it returns the row it stored under the generated key,
    whose CPF no row held. *)
Lemma post_ends now atleta_in db :
  let r := controller.post engine now atleta_in (begin db) in
  (∃ code detail, r.1 = Raise (HTTPException code detail)
                  ∧ (code = 400 ∨ code = 303 ∨ code = 500)
                  ∧ committed r.2 = db ∧ working r.2 = db)
  ∨ (∃ row, r.1 = Ok (AtletaOut.mk (next_pk_id engine (atletas db)) row)
            ∧ committed r.2 = set_atletas db (<[next_pk_id engine (atletas db) := row]> (atletas db))
            ∧ working r.2 = committed r.2
            ∧ cpf_of row = Some (AtletaIn.cpf atleta_in)
            ∧ cpf_taken (atletas db) None (AtletaIn.cpf atleta_in) = false
            ∧ atletas db !! next_pk_id engine (atletas db) = None).
Proof.
  intros r. unfold r.
  destruct (find (λ c, bool_decide (CategoriaModel.nome c
                                    = CategoriaIn.nome (AtletaIn.categoria atleta_in)))
                 (categorias db)) as [categoria|] eqn:Hcat.
  2:{ destruct (post_run_unresolved now atleta_in db) as [detail ->]; [by left|].
      left. exists 400, detail. auto. }
  destruct (find (λ c, bool_decide (CentroTreinamentoModel.nome c
                                    = CentroTreinamentoAtleta.nome
                                        (AtletaIn.centro_treinamento atleta_in)))
                 (centros_treinamento db)) as [centro|] eqn:Hct.
  2:{ destruct (post_run_unresolved now atleta_in db) as [detail ->]; [by right|].
      left. exists 400, detail. auto. }
  rewrite (post_run engine now atleta_in db categoria centro Hcat Hct). cbv zeta.
  case_bool_decide; [left; eexists 500, _; simpl; auto 10|].
  destruct (data_error engine _) eqn:Hde; [left; eexists 500, _; simpl; auto 10|].
  destruct (_ || _) eqn:Hint; [left; eexists 303, _; simpl; auto 10|].
  apply orb_false_iff in Hint as [Hint Htk].
  apply orb_false_iff in Hint as [_ Hpk].
  apply bool_decide_eq_false in Hpk. rewrite <- eq_None_not_Some in Hpk.
  right. eexists. simpl. split_and!; try done.
  apply cpf_of_created_row.
Qed.

(** How [patch] ends in a new session. *)
Lemma patch_ends id atleta_up db :
  let r := controller.patch engine id atleta_up (begin db) in
  let data := AtletaUpdate.model_dump_exclude_unset atleta_up in
  (∃ e, r.1 = Raise e ∧ committed r.2 = db ∧ working r.2 = db
        ∧ (e = DataError ∨ ∃ code detail,
             e = HTTPException code detail ∧ (code = 404 ∨ code = 303)))
  ∨ (∃ row t', atletas db !! id = Some row
               ∧ update_row engine db id (data ∪ row) = Ok t'
               ∧ r.1 = Ok (AtletaOut.mk id (data ∪ row))
               ∧ committed r.2 = t' ∧ working r.2 = t').
Proof.
  intros r data. unfold r.
  destruct (atletas db !! id) as [row|] eqn:Hrow.
  - rewrite (patch_run engine id atleta_up db row Hrow). cbv zeta. fold data.
    destruct (update_row engine db id (data ∪ row)) as [t'|e] eqn:Hup.
    + right. exists row, t'. simpl. auto.
    + left. assert (e = IntegrityError ∨ e = DataError) as [->| ->].
      { revert Hup. unfold update_row. rewrite Hrow.
        repeat case_match; intros [=]; auto. }
      * eexists. simpl. split_and!; try done. right. eexists 303, _. auto.
      * eexists. simpl. split_and!; try done. auto.
  - unfold controller.patch. run_M. rewrite first_atleta_begin, Hrow.
    left. eexists. simpl. split_and!; try done. right. eexists 404, _. auto.
Qed.

End Ends.

Lemma update_row_same engine db id row :
  atletas db !! id = Some row → update_row engine db id row = Ok db.
Proof. intros H. unfold update_row. rewrite H. by rewrite bool_decide_eq_true_2. Qed.

Lemma union_same (data row : gmap string value) :
  (∀ k v, data !! k = Some v → row !! k = Some v) → data ∪ row = row.
Proof. intros H. apply map_subseteq_union, map_subseteq_spec. exact H. Qed.

Section Updates.
Variable engine : Engine.

(** X8. [patch] on an id under which nothing is stored raises the 404
    exception whose message ends with the id, whatever the payload, and
    leaves the session as it was. *)
Theorem patch_not_found id atleta_up db :
  atletas db !! id = None →
  controller.patch engine id atleta_up (begin db)
  = (Raise (HTTPException 404 ("Atleta não encontrado no id: " +:+ pretty id)), begin db).
Proof.
  intros Hnone. unfold controller.patch. run_M.
  by rewrite first_atleta_begin, Hnone.
Qed.

(** X9. A payload that sets nothing, or only values the row already
    has, changes nothing: [patch] returns the record as stored and the
    tables are the ones the request started with, whatever rows the engine
    refuses (no UPDATE is sent). *)
Theorem patch_nothing_to_change id atleta_up db row :
  atletas db !! id = Some row →
  (∀ k v, AtletaUpdate.model_dump_exclude_unset atleta_up !! k = Some v → row !! k = Some v) →
  ∃ s', controller.patch engine id atleta_up (begin db) = (Ok (AtletaOut.mk id row), s')
        ∧ committed s' = db ∧ working s' = db.
Proof.
  intros Hrow Hsame.
  rewrite (patch_run engine id atleta_up db row Hrow). cbv zeta.
  rewrite (union_same _ _ Hsame), (update_row_same _ _ _ _ Hrow). eauto.
Qed.

(** X10. [patch] catches only the integrity error. When the payload
    changes the row and the engine refuses the updated row for another
    reason, that exception leaves the handler as it is (the response is a
    500) and the tables are the ones the request started with. The handler
    has not called [rollback]: the session is left in the inactive state
    in which the failed flush put it. *)
Theorem patch_refused_row id atleta_up db row :
  atletas db !! id = Some row →
  let new := AtletaUpdate.model_dump_exclude_unset atleta_up ∪ row in
  new ≠ row → data_error engine new = true →
  ∃ s', controller.patch engine id atleta_up (begin db) = (Raise DataError, s')
        ∧ response_status controller.patch_status_code (@Raise AtletaOut.t DataError) = 500
        ∧ committed s' = db ∧ working s' = db
        ∧ is_active s' = false.
Proof.
  intros Hrow new Hnew Hde.
  rewrite (patch_run engine id atleta_up db row Hrow). cbv zeta. fold new.
  unfold update_row. rewrite Hrow.
  rewrite bool_decide_eq_false_2 by (intros Heq; by apply Hnew).
  rewrite Hde. eexists. split_and!; reflexivity.
Qed.

(** X11. After an update that returned, the same update in a later
    session returns the same record and leaves the store as the first one
    left it, and a [get] of the id returns that record. *)
Theorem patch_again id atleta_up db out s' :
  controller.patch engine id atleta_up (begin db) = (Ok out, s') →
  ∃ s'', controller.patch engine id atleta_up (begin (committed s')) = (Ok out, s'')
         ∧ committed s'' = committed s'
  ∧ (controller.get id (begin (committed s'))).1 = Ok out.
Proof.
  intros Hpatch.
  destruct (patch_ends engine id atleta_up db) as [(e & He & _)|(row & t' & Hrow & Hup & Hout & Hc & _)].
  { rewrite Hpatch in He. done. }
  rewrite Hpatch in Hout, Hc. simpl in Hout, Hc. injection Hout as ->. subst t'.
  apply update_row_lookup in Hup as (Hnew & _).
  rewrite (patch_run engine id atleta_up (committed s') _ Hnew). cbv zeta.
  rewrite union_same.
  2:{ intros k v Hk. by apply lookup_union_Some_l. }
  rewrite (update_row_same _ _ _ _ Hnew).
  eexists. split_and!; [reflexivity|done|].
  rewrite get_run, Hnew. done.
Qed.

End Updates.

Section Creates.
Variable engine : Engine.

(** What a returning [post] stored. *)
Lemma post_ok_stored now atleta_in db out s' :
  controller.post engine now atleta_in (begin db) = (Ok out, s') →
  AtletaOut.pk_id out = next_pk_id engine (atletas db)
  ∧ committed s' = set_atletas db (<[AtletaOut.pk_id out := AtletaOut.fields out]> (atletas db))
  ∧ cpf_of (AtletaOut.fields out) = Some (AtletaIn.cpf atleta_in)
  ∧ atletas db !! AtletaOut.pk_id out = None.
Proof.
  intros Hpost.
  destruct (post_ends engine now atleta_in db)
    as [(code & detail & He & _)|(row & Hout & Hc & _ & Hcpf & _ & Hfresh)];
    rewrite Hpost in *; simpl in *; [done|].
  injection Hout as ->. done.
Qed.

(** X12. After a create that returned, a [get] of the returned id in a
    later session returns the very record the create returned. *)
Theorem get_after_post now atleta_in db out s' :
  controller.post engine now atleta_in (begin db) = (Ok out, s') →
  (controller.get (AtletaOut.pk_id out) (begin (committed s'))).1 = Ok out.
Proof.
  intros Hpost. apply post_ok_stored in Hpost as (_ & -> & _ & _).
  rewrite get_run. simpl. rewrite lookup_insert_eq. by destruct out.
Qed.

(** X13. After a create that returned, no later create with the same
    CPF returns, whatever the rest of its input: it raises a 400, 303 or
    500 exception and the store is unchanged; when its references resolve
    and its row is otherwise acceptable, it is the 303 exception with the
    CPF in the message. *)
Theorem post_same_cpf_again now atleta_in db out s' now' atleta_in' :
  controller.post engine now atleta_in (begin db) = (Ok out, s') →
  AtletaIn.cpf atleta_in' = AtletaIn.cpf atleta_in →
  let r := controller.post engine now' atleta_in' (begin (committed s')) in
  (∃ code detail, r.1 = Raise (HTTPException code detail)
                  ∧ (code = 400 ∨ code = 303 ∨ code = 500))
  ∧ committed r.2 = committed s'
  ∧ (∀ categoria centro,
       find (λ c, bool_decide (CategoriaModel.nome c
                               = CategoriaIn.nome (AtletaIn.categoria atleta_in')))
            (categorias db) = Some categoria →
       find (λ c, bool_decide (CentroTreinamentoModel.nome c
                               = CentroTreinamentoAtleta.nome
                                   (AtletaIn.centro_treinamento atleta_in')))
            (centros_treinamento db) = Some centro →
       ¬ keyword_clash (AtletaIn.model_dump_exclude atleta_in') →
       data_error engine (created_row now' categoria centro (AtletaIn.model_dump_exclude atleta_in'))
       = false →
       r.1 = Raise (HTTPException 303
                      ("Já existe um atleta cadastrado com o cpf: "
                       +:+ AtletaIn.cpf atleta_in))).
Proof.
  intros Hpost Hcpf r.
  apply post_ok_stored in Hpost as (Hpk & Hc & Hrow & _).
  assert (cpf_taken (atletas (committed s')) None (AtletaIn.cpf atleta_in') = true) as Htaken.
  { apply cpf_taken_true. exists (AtletaOut.pk_id out), (AtletaOut.fields out).
    rewrite Hc. simpl. rewrite lookup_insert_eq. split_and!; [done..|].
    rewrite Hcpf. unfold cpf_of in Hrow.
    destruct (AtletaOut.fields out !! "cpf") as [[]|]; congruence. }
  split_and!.
  - destruct (post_ends engine now' atleta_in' (committed s'))
      as [(code & detail & He & Hcode & _)|(row & _ & _ & _ & _ & Hfree & _)].
    + eauto.
    + congruence.
  - destruct (post_ends engine now' atleta_in' (committed s'))
      as [(code & detail & _ & _ & Hsame & _)|(row & _ & _ & _ & _ & Hfree & _)].
    + done.
    + congruence.
  - intros categoria centro Hcat Hct Hclash Hde. unfold r.
    rewrite (post_run engine now' atleta_in' (committed s') categoria centro).
    + cbv zeta. rewrite bool_decide_eq_false_2 by done.
      rewrite Hde, Htaken, orb_true_r. simpl. by rewrite Hcpf.
    + by rewrite Hc.
    + by rewrite Hc.
Qed.

(** X14. Two creates that return, one after the other, return
    different ids; afterwards a [get] of each id returns the record of its
    create (the second create does not disturb the first record), and the
    store holds two athletes more. *)
Theorem post_twice now atleta_in db out s1 now' atleta_in' out' s2 :
  controller.post engine now atleta_in (begin db) = (Ok out, s1) →
  controller.post engine now' atleta_in' (begin (committed s1)) = (Ok out', s2) →
  AtletaOut.pk_id out' ≠ AtletaOut.pk_id out
  ∧ (controller.get (AtletaOut.pk_id out) (begin (committed s2))).1 = Ok out
  ∧ (controller.get (AtletaOut.pk_id out') (begin (committed s2))).1 = Ok out'
  ∧ size (atletas (committed s2)) = S (S (size (atletas db))).
Proof.
  intros H1 H2.
  apply post_ok_stored in H1 as (Hpk1 & Hc1 & _ & Hfresh1).
  apply post_ok_stored in H2 as (Hpk2 & Hc2 & _ & Hfresh2).
  assert (AtletaOut.pk_id out' ≠ AtletaOut.pk_id out) as Hne.
  { intros Heq. rewrite Hc1, Heq in Hfresh2. simpl in Hfresh2.
    by rewrite lookup_insert_eq in Hfresh2. }
  split_and!; [done| | |].
  - rewrite get_run, Hc2. simpl. rewrite lookup_insert_ne by done.
    rewrite Hc1. simpl. rewrite lookup_insert_eq. by destruct out.
  - rewrite get_run, Hc2. simpl. rewrite lookup_insert_eq. by destruct out'.
  - rewrite Hc2. simpl. rewrite map_size_insert_None by done.
    rewrite Hc1. simpl. by rewrite map_size_insert_None.
Qed.

End Creates.

(** ** Invariants of the store *)

Lemma cpf_unique_insert_free rows pk row c :
  cpf_unique rows → cpf_of row = Some c → cpf_taken rows (Some pk) c = false →
  cpf_unique (<[pk := row]> rows).
Proof.
  intros Huniq Hrow Hfree k1 k2 r1 r2 c' H1 H2 Hc1 Hc2.
  assert (∀ k r, k ≠ pk → rows !! k = Some r → cpf_of r ≠ Some c) as Hother.
  { intros k r Hk Hr Hc.
    assert (cpf_taken rows (Some pk) c = true) as Ht; [|congruence].
    apply cpf_taken_true. exists k, r. split_and!; [done|congruence|].
    unfold cpf_of in Hc. destruct (r !! "cpf") as [[]|]; congruence. }
  destruct (decide (k1 = pk)) as [->|Hk1], (decide (k2 = pk)) as [->|Hk2]; [done| | |].
  - rewrite lookup_insert_eq in H1. rewrite lookup_insert_ne in H2 by done.
    injection H1 as <-. exfalso. apply (Hother k2 r2); congruence.
  - rewrite lookup_insert_eq in H2. rewrite lookup_insert_ne in H1 by done.
    injection H2 as <-. exfalso. apply (Hother k1 r1); congruence.
  - rewrite lookup_insert_ne in H1, H2 by done. eauto.
Qed.

Lemma cpf_unique_insert_null rows pk row :
  cpf_unique rows → cpf_of row = None → cpf_unique (<[pk := row]> rows).
Proof.
  intros Huniq Hrow k1 k2 r1 r2 c' H1 H2 Hc1 Hc2.
  destruct (decide (k1 = pk)) as [->|Hk1], (decide (k2 = pk)) as [->|Hk2]; [done| | |].
  - rewrite lookup_insert_eq in H1. injection H1 as <-. congruence.
  - rewrite lookup_insert_eq in H2. injection H2 as <-. congruence.
  - rewrite lookup_insert_ne in H1, H2 by done. eauto.
Qed.

Lemma cpf_unique_insert_same rows pk old row :
  cpf_unique rows → rows !! pk = Some old → cpf_of row = cpf_of old →
  cpf_unique (<[pk := row]> rows).
Proof.
  intros Huniq Hold Hsame k1 k2 r1 r2 c' H1 H2 Hc1 Hc2.
  destruct (decide (k1 = pk)) as [->|Hk1], (decide (k2 = pk)) as [->|Hk2]; [done| | |].
  - rewrite lookup_insert_eq in H1. rewrite lookup_insert_ne in H2 by done.
    injection H1 as <-. symmetry. apply (Huniq k2 pk r2 old c'); congruence.
  - rewrite lookup_insert_eq in H2. rewrite lookup_insert_ne in H1 by done.
    injection H2 as <-. apply (Huniq k1 pk r1 old c'); congruence.
  - rewrite lookup_insert_ne in H1, H2 by done. eauto.
Qed.

Lemma cpf_taken_skip rows pk c :
  rows !! pk = None → cpf_taken rows (Some pk) c = cpf_taken rows None c.
Proof.
  intros Hpk. apply eq_true_iff_eq. rewrite !cpf_taken_true.
  split; intros (k & r & Hk & Hs & Hc); exists k, r; split_and!; try done.
  congruence.
Qed.

Lemma update_row_cpf_unique engine db id new t' :
  cpf_unique (atletas db) → update_row engine db id new = Ok t' →
  cpf_unique (atletas t').
Proof.
  intros Huniq. unfold update_row.
  destruct (atletas db !! id) as [old|] eqn:Hold; [|done].
  case_bool_decide; [by intros [= <-]|].
  destruct (data_error engine new); [done|].
  destruct (constraint_error engine db new); [done|].
  case_bool_decide as Hsame; simpl.
  - intros [= <-]. simpl. by eapply cpf_unique_insert_same.
  - destruct (cpf_of new) as [c|] eqn:Hc; simpl.
    + destruct (cpf_taken _ _ _) eqn:Hfree; [done|]. intros [= <-]. simpl.
      by eapply cpf_unique_insert_free.
    + intros [= <-]. simpl. by apply cpf_unique_insert_null.
Qed.

Section Invariants.
Variable engine : Engine.

(** X15. When no two athletes of the store hold the same CPF, this is
    still so after a [post], a [patch] or a [delete], whatever the input
    and however the handler ends. *)
Theorem cpf_unique_kept db :
  cpf_unique (atletas db) →
  (∀ now atleta_in,
     cpf_unique (atletas (committed (controller.post engine now atleta_in (begin db)).2)))
  ∧ (∀ id atleta_up,
       cpf_unique (atletas (committed (controller.patch engine id atleta_up (begin db)).2)))
  ∧ (∀ id, cpf_unique (atletas (committed (controller.delete engine id (begin db)).2))).
Proof.
  intros Huniq. split_and!.
  - intros now atleta_in.
    destruct (post_ends engine now atleta_in db)
      as [(code & detail & _ & _ & -> & _)|(row & _ & -> & _ & Hcpf & Hfree & Hpk)]; [done|].
    simpl. eapply cpf_unique_insert_free; [done..|].
    by rewrite cpf_taken_skip.
  - intros id atleta_up.
    destruct (patch_ends engine id atleta_up db)
      as [(e & _ & -> & _)|(row & t' & _ & Hup & _ & -> & _)]; [done|].
    by eapply update_row_cpf_unique.
  - intros id. rewrite delete_run.
    destruct (atletas db !! id) as [row|] eqn:Hrow; [|done]. simpl.
    intros k1 k2 r1 r2 c H1 H2.
    apply lookup_delete_Some in H1 as [_ H1]. apply lookup_delete_Some in H2 as [_ H2].
    eauto.
Qed.

(** X17. Deleting an athlete leaves one athlete fewer and every other
    row as it was; deleting the same id again raises the 404 exception and
    changes nothing. *)
Theorem delete_again id db row :
  atletas db !! id = Some row →
  let s' := (controller.delete engine id (begin db)).2 in
  S (size (atletas (committed s'))) = size (atletas db)
  ∧ (∀ id', id' ≠ id → atletas (committed s') !! id' = atletas db !! id')
  ∧ controller.delete engine id (begin (committed s'))
    = (Raise (HTTPException 404 ("Atleta não encontrado no id: " +:+ pretty id)),
       begin (committed s')).
Proof.
  intros Hrow s'. unfold s'. rewrite delete_run, Hrow. simpl. split_and!.
  - rewrite map_size_delete, Hrow.
    assert (size (atletas db) ≠ 0%nat) as Hsize.
    { intros H0. apply map_size_empty_iff in H0. rewrite H0 in Hrow.
      by rewrite lookup_empty in Hrow. }
    destruct (size (atletas db)); [done|]. simpl. done.
  - intros id' Hne. by rewrite lookup_delete_ne.
  - rewrite delete_run. simpl. by rewrite lookup_delete_eq.
Qed.

End Invariants.

(** ** More on the listing *)

(** X6. A listing returns as many items as the limit allows of what is
    left after the offset: the smaller of [limit] and [total - offset]
    (none when the offset is at or past the total); [total] is at most the
    number of athletes in the store. *)
Theorem query_page_size params nome cpf s :
  ∃ page, controller.query params nome cpf s = (Ok page, s)
          ∧ length (items page) = (limit params `min` (total page - offset params))%nat
          ∧ (total page ≤ size (atletas (working s)))%nat.
Proof.
  rewrite query_run. eexists. split; [reflexivity|]. simpl. split.
  - by rewrite length_take, length_drop.
  - rewrite length_map, <- length_map_to_list.
    apply filter_length_le.
Qed.

(** X7. The page of [l1] items at offset [o], followed by the page of
    [l2] items at offset [o + l1], is the page of [l1 + l2] items at
    offset [o]; the three pages report the same total. *)
Theorem query_pages_join l1 l2 o nome cpf s :
  ∃ p1 p2 p,
    controller.query {| limit := l1; offset := o |} nome cpf s = (Ok p1, s)
    ∧ controller.query {| limit := l2; offset := o + l1 |} nome cpf s = (Ok p2, s)
    ∧ controller.query {| limit := l1 + l2; offset := o |} nome cpf s = (Ok p, s)
    ∧ (items p1 ++ items p2)%list = items p
    ∧ total p1 = total p ∧ total p2 = total p.
Proof.
  rewrite !query_run. eexists _, _, _. split_and!; try reflexivity.
  simpl. rewrite <- drop_drop. apply take_take_drop.
Qed.

(** X4. A listing whose filters are both absent or empty counts every
    athlete of the store in [total]. *)
Theorem query_no_filter params nome cpf s :
  truthy nome = false → truthy cpf = false →
  ∃ page, controller.query params nome cpf s = (Ok page, s)
          ∧ total page = size (atletas (working s)).
Proof.
  intros Hn Hc. rewrite query_run. eexists. split; [reflexivity|]. simpl.
  rewrite length_map, <- length_map_to_list. f_equal.
  rewrite <- (filter_ext (λ _, true)).
  - induction (map_to_list _) as [|x l IH]; simpl; [done|]. by rewrite IH.
  - intros kr. unfold listed. by rewrite Hn, Hc.
Qed.

Lemma length_le_1_of_all_equal {A} (l : list A) :
  NoDup l → (∀ x y, x ∈ l → y ∈ l → x = y) → (length l ≤ 1)%nat.
Proof.
  intros Hnd Heq. destruct l as [|x [|y l]]; simpl; [lia..|].
  exfalso. apply NoDup_cons in Hnd as [Hx _]. apply Hx.
  rewrite (Heq x y); [left|left|right; left].
Qed.

(** X5. When no two athletes hold the same CPF, a listing with a
    non-empty [cpf] filter has at most one item in all; when it has one,
    an athlete of the store holds exactly that CPF and passes the [nome]
    filter. *)
Theorem query_cpf_at_most_one params nome c s :
  cpf_unique (atletas (working s)) → c ≠ "" →
  ∃ page, controller.query params nome (Some c) s = (Ok page, s)
          ∧ (total page ≤ 1)%nat
          ∧ (total page = 1%nat →
             ∃ k row, atletas (working s) !! k = Some row
                      ∧ row !! "cpf" = Some (VStr c)
                      ∧ listed nome None (k, row) = true).
Proof.
  intros Huniq Hc. rewrite query_run. eexists. split; [reflexivity|]. simpl.
  rewrite length_map.
  set (l := List.filter _ _).
  assert (∀ kr, kr ∈ l → atletas (working s) !! kr.1 = Some kr.2
                         ∧ kr.2 !! "cpf" = Some (VStr c)
                         ∧ listed nome None kr = true) as Hl.
  { intros [k row] Hin. apply list_elem_of_In, filter_In in Hin as [Hin Hlisted].
    apply list_elem_of_In, elem_of_map_to_list in Hin. simpl.
    unfold listed in *. apply andb_true_iff in Hlisted as [Hn Hcpf].
    assert (truthy (Some c) = true) as Ht.
    { simpl. apply negb_true_iff. by apply String.eqb_neq. }
    rewrite Ht in Hcpf. simpl in Hcpf. apply bool_decide_eq_true in Hcpf.
    split_and!; [done..|]. by rewrite Hn. }
  split.
  - apply length_le_1_of_all_equal.
    + apply NoDup_ListNoDup. unfold l. apply List.NoDup_filter.
      apply NoDup_ListNoDup, NoDup_map_to_list.
    + intros [k1 r1] [k2 r2] H1 H2.
      apply Hl in H1 as (H1 & Hc1 & _). apply Hl in H2 as (H2 & Hc2 & _). simpl in *.
      assert (k1 = k2) as ->.
      { apply (Huniq k1 k2 r1 r2 c); [done..| |]; unfold cpf_of; by rewrite ?Hc1, ?Hc2. }
      congruence.
  - intros Hone. destruct l as [|[k row] l'] eqn:El; [done|].
    exists k, row. apply (Hl (k, row)). left.
Qed.

(** ** More on patterns *)

Lemma lowered_pattern nome :
  map lower (list_ascii_of_string ("%" +:+ nome +:+ "%"))
  = ("%"%char :: fold_case nome ++ ["%"%char])%list.
Proof.
  rewrite !list_ascii_of_string_app. cbn [list_ascii_of_string app map].
  rewrite map_app. reflexivity.
Qed.

Lemma fold_case_empty nome : fold_case nome = [] ↔ nome = "".
Proof. unfold fold_case. destruct nome; simpl; split; congruence. Qed.

(** X3. Two [nome] filters that differ only in the case of ASCII
    letters give the same listing. *)
Theorem query_nome_case_insensitive params n1 n2 cpf s :
  fold_case n1 = fold_case n2 →
  controller.query params (Some n1) cpf s = controller.query params (Some n2) cpf s.
Proof.
  intros Hfold. rewrite !query_run. do 4 f_equal.
  apply filter_ext. intros kr. unfold listed. f_equal.
  assert (truthy (Some n1) = truthy (Some n2)) as ->.
  { simpl. f_equal. apply eq_true_iff_eq.
    rewrite !String.eqb_eq, <- !fold_case_empty. by rewrite Hfold. }
  destruct (truthy (Some n2)); [|done]. simpl.
  unfold ilike. by rewrite !lowered_pattern, Hfold.
Qed.

Lemma starts_with_app p s :
  starts_with p s = true → ∃ post, s = (p ++ post)%list.
Proof.
  revert s. induction p as [|c p IH]; intros s H; [by exists s|].
  destruct s as [|d s]; [done|]. simpl in H.
  apply andb_true_iff in H as [Hc Hp]. apply Ascii.eqb_eq in Hc as ->.
  destruct (IH s Hp) as [post ->]. by exists post.
Qed.

Lemma occurs_in_app p s :
  occurs_in p s = true → ∃ pre post, s = (pre ++ p ++ post)%list.
Proof.
  induction s as [|d s IH]; simpl; intros H.
  - rewrite orb_false_r in H. apply starts_with_app in H as [post ->]. by exists [], post.
  - apply orb_true_iff in H as [H|H].
    + apply starts_with_app in H as [post ->]. by exists [], post.
    + destruct (IH H) as (pre & post & ->). by exists (d :: pre), post.
Qed.

Lemma like_match_skip q pre t :
  like_match q t = true → like_match ("%"%char :: q) (pre ++ t) = true.
Proof.
  intros H. induction pre as [|d pre IH].
  - rewrite like_match_percent. simpl. by rewrite H.
  - change (like_match ("%"%char :: q) (d :: (pre ++ t)%list) = true).
    rewrite like_match_percent.
    change (like_match q (d :: (pre ++ t)%list)
            || like_match ("%"%char :: q) (pre ++ t)%list = true).
    rewrite IH. apply orb_true_r.
Qed.

Lemma like_match_underscore p s :
  like_match ("_"%char :: p) s
  = match s with [] => false | _ :: s' => like_match p s' end.
Proof. reflexivity. Qed.

(** A pattern without backslash matches itself, followed by what the rest
    of the pattern matches. *)
Lemma like_match_self p rest t :
  forallb (λ c, negb (Ascii.eqb c "\")) p = true →
  like_match rest t = true → like_match (p ++ rest) (p ++ t) = true.
Proof.
  intros Hp Hrest. induction p as [|c p IH]; [done|].
  simpl in Hp. apply andb_true_iff in Hp as [Hc Hp]. apply negb_true_iff in Hc.
  specialize (IH Hp). simpl app.
  destruct (Ascii.eqb c "%") eqn:E1.
  { apply Ascii.eqb_eq in E1 as ->.
    apply (like_match_skip _ ["%"%char]). exact IH. }
  destruct (Ascii.eqb c "_") eqn:E2.
  { apply Ascii.eqb_eq in E2 as ->. by rewrite like_match_underscore. }
  rewrite like_match_literal.
  - by rewrite Ascii.eqb_refl, IH.
  - unfold like_special. by rewrite E1, E2, Hc.
Qed.

Lemma lower_not_escape c : Ascii.eqb c "\" = false → Ascii.eqb (lower c) "\" = false.
Proof.
  intros H. unfold lower.
  destruct (_ && _)%N eqn:E; [|done].
  destruct c as [[] [] [] [] [] [] [] []]; vm_compute in E; try discriminate; reflexivity.
Qed.

(** X2. For a filter without backslash, a row whose name contains the
    filter, letter case apart, passes the criterion [query] puts on
    [nome]: the characters [%] and [_] of a filter only add rows. *)
Theorem contains_is_listed nome a s :
  no_escape nome = true →
  a !! "nome" = Some (VStr s) → contains_ci nome s = true →
  ilike "nome" ("%" +:+ nome +:+ "%") a = true.
Proof.
  intros Hesc Ha Hin. unfold ilike. rewrite Ha, lowered_pattern.
  unfold contains_ci in Hin. fold (fold_case nome) in Hin.
  apply occurs_in_app in Hin as (pre & post & ->).
  apply like_match_skip, like_match_self; [|apply like_match_percent_nil].
  unfold no_escape in Hesc. unfold fold_case.
  rewrite forallb_forall in *. intros c Hc.
  apply in_map_iff in Hc as (c' & <- & Hc').
  apply negb_true_iff, lower_not_escape, negb_true_iff. by apply Hesc.
Qed.

(** ** The further properties on the sample store *)

(** Ana and Bruno hold different CPFs. *)
Lemma sample_db_cpf_unique : cpf_unique (atletas sample_db).
Proof.
  intros k1 k2 r1 r2 c H1 H2 Hc1 Hc2. simpl in H1, H2.
  apply lookup_insert_Some in H1 as [[<- <-]|[? H1]];
    [|apply lookup_insert_Some in H1 as [[<- <-]|[? H1]]; [|by rewrite lookup_empty in H1]];
    (apply lookup_insert_Some in H2 as [[<- <-]|[? H2]];
       [|apply lookup_insert_Some in H2 as [[<- <-]|[? H2]]; [|by rewrite lookup_empty in H2]]);
    try done; vm_compute in Hc1, Hc2; congruence.
Qed.

(** A name with an underscore is listed under a filter with one. *)
Lemma contains_is_listed_witness :
  ilike "nome" "%a_l%" (sample_athlete "Ana_Luz" "11122233344" 1 1) = true.
Proof.
  apply (contains_is_listed "a_l" (sample_athlete "Ana_Luz" "11122233344" 1 1) "Ana_Luz");
    vm_compute; reflexivity.
Defined.

(** ANA and ana list the same athletes. *)
Lemma query_nome_case_insensitive_witness :
  controller.query sample_params (Some "ANA") None (begin sample_db)
  = controller.query sample_params (Some "ana") None (begin sample_db).
Proof.
  apply (query_nome_case_insensitive sample_params "ANA" "ana" None (begin sample_db)).
  vm_compute. reflexivity.
Defined.

(** An empty filter counts both athletes. *)
Lemma query_no_filter_witness :
  ∃ page, controller.query sample_params (Some "") None (begin sample_db)
          = (Ok page, begin sample_db)
          ∧ total page = size (atletas (working (begin sample_db))).
Proof.
  apply (query_no_filter sample_params (Some "") None (begin sample_db)); reflexivity.
Defined.

(** The CPF of Ana selects at most one athlete. *)
Lemma query_cpf_at_most_one_witness :
  ∃ page, controller.query sample_params None (Some "11122233344") (begin sample_db)
          = (Ok page, begin sample_db)
          ∧ (total page ≤ 1)%nat
          ∧ (total page = 1%nat →
             ∃ k row, atletas (working (begin sample_db)) !! k = Some row
                      ∧ row !! "cpf" = Some (VStr "11122233344")
                      ∧ listed None None (k, row) = true).
Proof.
  apply (query_cpf_at_most_one sample_params None "11122233344" (begin sample_db)).
  - exact sample_db_cpf_unique.
  - discriminate.
Defined.

(** Nothing to update under 7. *)
Lemma patch_not_found_witness :
  controller.patch sample_engine 7 sample_patch (begin sample_db)
  = (Raise (HTTPException 404 "Atleta não encontrado no id: 7"), begin sample_db).
Proof.
  apply (patch_not_found sample_engine 7 sample_patch sample_db).
  vm_compute. reflexivity.
Defined.

(** An empty payload, on an engine that refuses every row. *)
Lemma patch_nothing_to_change_witness :
  ∃ s', controller.patch sample_engine_refusing 2 sample_patch_nothing (begin sample_db)
        = (Ok (AtletaOut.mk 2 sample_bruno), s')
        ∧ committed s' = sample_db ∧ working s' = sample_db.
Proof.
  apply (patch_nothing_to_change sample_engine_refusing 2 sample_patch_nothing sample_db sample_bruno).
  - vm_compute. reflexivity.
  - intros k v Hk. vm_compute in Hk. discriminate.
Defined.

(** A CPF of 12 characters is refused, and the exception is not handled. *)
Lemma patch_refused_row_witness :
  ∃ s', controller.patch sample_engine 2 sample_patch_long (begin sample_db)
        = (Raise DataError, s')
        ∧ response_status controller.patch_status_code (@Raise AtletaOut.t DataError) = 500
        ∧ committed s' = sample_db ∧ working s' = sample_db
        ∧ is_active s' = false.
Proof.
  apply (patch_refused_row sample_engine 2 sample_patch_long sample_db sample_bruno).
  - vm_compute. reflexivity.
  - intros Heq. apply (f_equal (λ m : gmap string value, m !! "cpf")) in Heq.
    vm_compute in Heq. discriminate.
  - vm_compute. reflexivity.
Defined.

(** Renaming Bruno twice. *)
Lemma patch_again_witness :
  ∃ out s' s'',
    controller.patch sample_engine 2 sample_patch (begin sample_db) = (Ok out, s')
    ∧ controller.patch sample_engine 2 sample_patch (begin (committed s')) = (Ok out, s'')
    ∧ committed s'' = committed s'
    ∧ (controller.get 2 (begin (committed s'))).1 = Ok out.
Proof.
  eexists _, _.
  assert (controller.patch sample_engine 2 sample_patch (begin sample_db)
          = (Ok (AtletaOut.mk 2 (AtletaUpdate.model_dump_exclude_unset sample_patch
                                 ∪ sample_bruno)),
             (controller.patch sample_engine 2 sample_patch (begin sample_db)).2)) as H
    by (vm_compute; reflexivity).
  destruct (patch_again sample_engine 2 sample_patch sample_db _ _ H)
    as (s'' & H2 & Hc & Hget).
  exists s''. split_and!; [exact H|exact H2|exact Hc|exact Hget].
Defined.

(** Maria is created under the key 3. *)
Lemma sample_maria_created :
  controller.post sample_engine sample_now sample_maria (begin sample_db)
  = (Ok (AtletaOut.mk 3 (created_row sample_now (CategoriaModel.mk 1 "CrossFit")
                           (CentroTreinamentoModel.mk 1 "CT Centro")
                           (AtletaIn.model_dump_exclude sample_maria))),
     (controller.post sample_engine sample_now sample_maria (begin sample_db)).2).
Proof. vm_compute. reflexivity. Qed.

(** Maria is read back as created. *)
Lemma get_after_post_witness :
  ∃ out s',
    controller.post sample_engine sample_now sample_maria (begin sample_db) = (Ok out, s')
    ∧ (controller.get (AtletaOut.pk_id out) (begin (committed s'))).1 = Ok out.
Proof.
  eexists _, _. split; [exact sample_maria_created|].
  exact (get_after_post sample_engine sample_now sample_maria sample_db _ _
           sample_maria_created).
Defined.

(** A second Maria with the CPF of the first is refused with 303. *)
Lemma post_same_cpf_again_witness :
  ∃ out s',
    controller.post sample_engine sample_now sample_maria (begin sample_db) = (Ok out, s')
    ∧ (controller.post sample_engine sample_earlier
         (sample_in "CrossFit" "CT Centro" "99988877766" {["nome" := VStr "Mariana"]})
         (begin (committed s'))).1
      = Raise (HTTPException 303 "Já existe um atleta cadastrado com o cpf: 99988877766").
Proof.
  eexists _, _. split; [exact sample_maria_created|].
  assert (AtletaIn.cpf (sample_in "CrossFit" "CT Centro" "99988877766"
                          {["nome" := VStr "Mariana"]})
          = AtletaIn.cpf sample_maria) as Hcpf by (vm_compute; reflexivity).
  pose proof (post_same_cpf_again sample_engine sample_now sample_maria sample_db
                _ _ sample_earlier
                (sample_in "CrossFit" "CT Centro" "99988877766" {["nome" := VStr "Mariana"]})
                sample_maria_created Hcpf) as H.
  cbv zeta in H. destruct H as (_ & _ & H).
  apply (H (CategoriaModel.mk 1 "CrossFit") (CentroTreinamentoModel.mk 1 "CT Centro")
           eq_refl eq_refl).
  - apply (bool_decide_eq_false_1 _). vm_compute. reflexivity.
  - vm_compute. reflexivity.
Defined.

(** Maria, then João: two ids, two records. *)
Lemma post_twice_witness :
  ∃ out s1 out' s2,
    controller.post sample_engine sample_now sample_maria (begin sample_db) = (Ok out, s1)
    ∧ controller.post sample_engine sample_now sample_joao (begin (committed s1))
      = (Ok out', s2)
    ∧ AtletaOut.pk_id out' ≠ AtletaOut.pk_id out
    ∧ (controller.get (AtletaOut.pk_id out) (begin (committed s2))).1 = Ok out
    ∧ (controller.get (AtletaOut.pk_id out') (begin (committed s2))).1 = Ok out'
    ∧ size (atletas (committed s2)) = S (S (size (atletas sample_db))).
Proof.
  eexists _, _, _, _. split; [exact sample_maria_created|].
  assert (controller.post sample_engine sample_now sample_joao
            (begin (committed
               (controller.post sample_engine sample_now sample_maria
                  (begin sample_db)).2))
          = (Ok (AtletaOut.mk 4 (created_row sample_now (CategoriaModel.mk 1 "CrossFit")
                                   (CentroTreinamentoModel.mk 1 "CT Centro")
                                   (AtletaIn.model_dump_exclude sample_joao))),
             (controller.post sample_engine sample_now sample_joao
                (begin (committed
                   (controller.post sample_engine sample_now sample_maria
                      (begin sample_db)).2))).2)) as H2
    by (vm_compute; reflexivity).
  split; [exact H2|].
  exact (post_twice sample_engine sample_now sample_maria sample_db _ _
           sample_now sample_joao _ _ sample_maria_created H2).
Defined.

(** The refused update and the create of Maria keep the CPFs unique. *)
Lemma cpf_unique_kept_witness :
  cpf_unique (atletas (committed
    (controller.patch sample_engine 2 sample_patch_cpf (begin sample_db)).2))
  ∧ cpf_unique (atletas (committed
      (controller.post sample_engine sample_now sample_maria (begin sample_db)).2)).
Proof.
  split.
  - exact (proj1 (proj2 (cpf_unique_kept sample_engine sample_db sample_db_cpf_unique))
             2 sample_patch_cpf).
  - exact (proj1 (cpf_unique_kept sample_engine sample_db sample_db_cpf_unique)
             sample_now sample_maria).
Defined.

(** Bruno is deleted once. *)
Lemma delete_again_witness :
  S (size (atletas (committed (controller.delete sample_engine 2 (begin sample_db)).2)))
  = size (atletas sample_db)
  ∧ controller.delete sample_engine 2
      (begin (committed (controller.delete sample_engine 2 (begin sample_db)).2))
    = (Raise (HTTPException 404 "Atleta não encontrado no id: 2"),
       begin (committed (controller.delete sample_engine 2 (begin sample_db)).2)).
Proof.
  destruct (delete_again sample_engine 2 sample_db sample_bruno) as (Hsize & _ & Hagain).
  - vm_compute. reflexivity.
  - split; [exact Hsize|exact Hagain].
Defined.
